(** * Service-hours engine of the GTFS backend ([main.py])

    A shallow embedding of [parse_gtfs_time], [get_active_services_on_date]
    and [calculate_service_hours_from_url], and the properties of the
    specification checked against them.

    Conventions of the embedding:
    - a pandas cell is a [value]; a column is a [Series] (dtype and cells);
      a [DataFrame] is its columns in order, each with its dtype, and its
      rows, each a finite map from column names to cells, so that all
      columns have as many cells as the frame has rows;
    - the dict [gtfs_data] is a [gmap string DataFrame]; the frames it
      holds are the objects that the code mutates in place, so every
      function that assigns into a frame returns the frame after it;
    - a Python exception that leaves a function is a [Raise];
    - a [timedelta] is its number of seconds, a midnight [Timestamp] is its
      day number;
    - the engine adds the hours as exact rationals ([Q]), which is what
      the properties that do not depend on the rounding are stated on;
      [Double] has the same additions on binary64 floats, as the code
      does them, for the properties that do. *)

From Stdlib Require Import ZArith QArith String Ascii List.
From Stdlib Require Floats Uint63.
From stdpp Require Import base gmap strings list.

Open Scope Z_scope.

(** ** Exceptions *)

Inductive exn :=
  | KeyError (key : string)
  | OverflowError
  | AttributeError.

Inductive outcome (A : Type) :=
  | Ret (a : A)
  | Raise (e : exn).
Arguments Ret {A} a.
Arguments Raise {A} e.

#[global] Instance outcome_ret : MRet outcome := fun _ a => Ret a.
#[global] Instance outcome_bind : MBind outcome := fun _ _ f m =>
  match m with
  | Ret a => f a
  | Raise e => Raise e
  end.

(** [map] of a function that may raise, evaluated from the first element on
    (what [Series.apply] does). *)
Fixpoint mapM {A B} (f : A -> outcome B) (l : list A) : outcome (list B) :=
  match l with
  | [] => Ret []
  | a :: l' => b ← f a; bs ← mapM f l'; Ret (b :: bs)
  end.

(** ** Python strings: [str.split] and [int] *)

Module Py.

(** [s.split(sep)] for a one-character separator. *)
Fixpoint split (sep : ascii) (s : string) : list string :=
  match s with
  | EmptyString => [EmptyString]
  | String c s' =>
      if Ascii.eqb c sep then EmptyString :: split sep s'
      else match split sep s' with
           | w :: ws => String c w :: ws
           | [] => [String c EmptyString]
           end
  end.

(** The characters [int] skips around a literal: space, and \t \n \v \f \r. *)
Definition is_space (c : ascii) : bool :=
  let n := nat_of_ascii c in
  (n =? 32)%nat || ((9 <=? n)%nat && (n <=? 13)%nat).

Definition digit_of (c : ascii) : option Z :=
  let n := nat_of_ascii c in
  if ((48 <=? n)%nat && (n <=? 57)%nat)%bool then Some (Z.of_nat n - 48) else None.

Fixpoint lstrip (cs : list ascii) : list ascii :=
  match cs with
  | c :: cs' => if is_space c then lstrip cs' else cs
  | [] => []
  end.

Definition strip (cs : list ascii) : list ascii :=
  rev (lstrip (rev (lstrip cs))).

(** Decimal digits, single underscores allowed between two digits.
    [after_digit] says that the previous character was a digit. *)
Fixpoint digits (acc : Z) (after_digit : bool) (cs : list ascii) : option Z :=
  match cs with
  | [] => if after_digit then Some acc else None
  | c :: cs' =>
      if Ascii.eqb c "_"%char then
        if after_digit then digits acc false cs' else None
      else
        match digit_of c with
        | Some d => digits (10 * acc + d) true cs'
        | None => None
        end
  end.

(** [sys.get_int_max_str_digits()] as CPython sets it: a literal of
    more digits is a [ValueError]. *)
Definition max_str_digits : Z := 4300.

Fixpoint count_digits (cs : list ascii) : Z :=
  match cs with
  | [] => 0
  | c :: cs' => (if digit_of c is Some _ then 1 else 0) + count_digits cs'
  end.

(** [int(s)] on an ASCII string; [None] stands for [ValueError]. *)
Definition int (s : string) : option Z :=
  let literal := strip (list_ascii_of_string s) in
  if max_str_digits <? count_digits literal then None else
  match literal with
  | c :: cs =>
      if Ascii.eqb c "-"%char then Z.opp <$> digits 0 false cs
      else if Ascii.eqb c "+"%char then digits 0 false cs
      else digits 0 false (c :: cs)
  | [] => None
  end.

(** [datetime.timedelta(hours=h, minutes=m, seconds=s)], as a number of
    seconds. The constructor normalises to days, seconds and microseconds
    and raises [OverflowError] when the days leave +-999999999. *)
Definition timedelta (hours minutes seconds : Z) : outcome Z :=
  let total := hours * 3600 + minutes * 60 + seconds in
  let days := total / 86400 in
  if (-999999999 <=? days) && (days <=? 999999999) then Ret total
  else Raise OverflowError.

End Py.

(** ** Cells, columns, frames *)

(** [NA] is NaN, None and NaT; [Str] a Python [str]; [Ts] a midnight
    Timestamp (day number); [Td] a timedelta (seconds). *)
Inductive value :=
  | NA
  | Str (s : string)
  | Ts (day : Z)
  | Td (secs : Z).

#[global] Instance value_eq_dec : EqDecision value.
Proof. solve_decision. Defined.

#[global] Instance value_countable : Countable value.
Proof.
  refine (inj_countable'
    (fun v => match v with
              | NA => inl ()
              | Str s => inr (inl s)
              | Ts d => inr (inr (inl d))
              | Td t => inr (inr (inr t))
              end)
    (fun x => match x with
              | inl _ => NA
              | inr (inl s) => Str s
              | inr (inr (inl d)) => Ts d
              | inr (inr (inr t)) => Td t
              end) _).
  by intros [].
Defined.

Definition isna (v : value) : bool :=
  match v with NA => true | _ => false end.

Definition notna (v : value) : bool := negb (isna v).

(** ** The time parser *)

(** [parse_gtfs_time(t)]: [pd.isna(t)] gives [None]; the three fields of
    [t.split(":")] go through [int]; a [ValueError] (a field that is no
    integer, or not exactly three fields) gives [None]; what [timedelta]
    raises is not a [ValueError] and leaves the function. A cell that is
    neither missing nor a string has no [split]. *)
Definition parse_gtfs_time (t : value) : outcome value :=
  match t with
  | NA => Ret NA
  | Str s =>
      match Py.int <$> Py.split ":" s with
      | [Some h; Some m; Some s] => td ← Py.timedelta h m s; Ret (Td td)
      | _ => Ret NA
      end
  | _ => Raise AttributeError
  end.

(** ** Calendar dates

    A date is its day number, day 0 being 1970-01-01 (a Thursday). *)

Module Date.

(** Year, month and day of a day number (proleptic Gregorian calendar). *)
Definition civil_from_days (z : Z) : Z * Z * Z :=
  let z := z + 719468 in
  let era := z / 146097 in
  let doe := z - era * 146097 in
  let yoe := (doe - doe / 1460 + doe / 36524 - doe / 146096) / 365 in
  let doy := doe - (365 * yoe + yoe / 4 - yoe / 100) in
  let mp := (5 * doy + 2) / 153 in
  let d := doy - (153 * mp + 2) / 5 + 1 in
  let m := if mp <? 10 then mp + 3 else mp - 9 in
  let y := yoe + era * 400 in
  (if m <=? 2 then y + 1 else y, m, d).

Definition days_from_civil (y m d : Z) : Z :=
  let y := if m <=? 2 then y - 1 else y in
  let era := y / 400 in
  let yoe := y - era * 400 in
  let doy := (153 * (if 2 <? m then m - 3 else m + 9) + 2) / 5 + d - 1 in
  let doe := yoe * 365 + yoe / 4 - yoe / 100 + doy in
  era * 146097 + doe - 719468.

Definition digit (n : Z) : ascii := ascii_of_nat (48 + Z.to_nat (n mod 10)).

(** [strftime("%Y%m%d")]: four, two and two digits (a Timestamp lies
    between the years 1677 and 2262). *)
Definition strftime_Ymd (date : Z) : string :=
  let '(y, m, d) := civil_from_days date in
  String (digit (y / 1000)) (String (digit (y / 100)) (String (digit (y / 10))
    (String (digit y) (String (digit (m / 10)) (String (digit m)
      (String (digit (d / 10)) (String (digit d) EmptyString))))))).

Definition day_names : list string :=
  ["monday"; "tuesday"; "wednesday"; "thursday"; "friday"; "saturday"; "sunday"].

(** [strftime("%A").lower()] *)
Definition day_name (date : Z) : string :=
  nth (Z.to_nat ((date + 3) mod 7)) day_names "sunday".

(** [pd.date_range(start, end)]: every day from [start] to [end], both
    included; nothing when [start] is after [end]. *)
Definition date_range (start_date end_date : Z) : list Z :=
  (fun i => start_date + Z.of_nat i) <$> seq 0 (Z.to_nat (end_date - start_date + 1)).

End Date.

Inductive dtype := object | datetime64 | timedelta64.

#[global] Instance dtype_eq_dec : EqDecision dtype.
Proof. solve_decision. Defined.

Record Series := mkSeries { dtype_of : dtype; values : list value }.

Record DataFrame := mkFrame {
  dtypes : list (string * dtype);
  rows : list (gmap string value)
}.

#[global] Instance Series_eq_dec : EqDecision Series.
Proof. solve_decision. Defined.

#[global] Instance DataFrame_eq_dec : EqDecision DataFrame.
Proof. solve_decision. Defined.

Module Pd.

(** [df.columns] *)
Definition columns (df : DataFrame) : list string := (dtypes df).*1.

(** [pd.DataFrame()] *)
Definition DataFrame0 : DataFrame := mkFrame [] [].

(** [pd.DataFrame(columns=names)] *)
Definition new_frame (names : list string) : DataFrame :=
  mkFrame ((fun n => (n, object)) <$> names) [].

(** [df.empty]: no row or no column. *)
Definition empty (df : DataFrame) : bool :=
  match rows df, dtypes df with
  | _ :: _, _ :: _ => false
  | _, _ => true
  end.

(** [name in df.columns] *)
Definition has_column (name : string) (df : DataFrame) : bool :=
  bool_decide (name ∈ columns df).

(** The cell of a row in a column; a row holds no cell only for a name
    that is not a column of its frame. *)
Definition cell (name : string) (row : gmap string value) : value :=
  default NA (row !! name).

Fixpoint lookup_dtype (name : string) (ds : list (string * dtype)) : option dtype :=
  match ds with
  | [] => None
  | (n, d) :: ds' => if String.eqb n name then Some d else lookup_dtype name ds'
  end.

(** [df[name]] where the code has checked [name in df.columns] before, or
    has made the column itself (see [getitem_column]). *)
Definition column (df : DataFrame) (name : string) : Series :=
  mkSeries (default object (lookup_dtype name (dtypes df))) (cell name <$> rows df).

(** [df[name]], which raises [KeyError] for a column that is not there. *)
Definition getitem (df : DataFrame) (name : string) : outcome Series :=
  if has_column name df then Ret (column df name) else Raise (KeyError name).

Fixpoint assign (name : string) (d : dtype) (ds : list (string * dtype))
  : list (string * dtype) :=
  match ds with
  | [] => [(name, d)]
  | (n, d0) :: ds' =>
      if String.eqb n name then (n, d) :: ds' else (n, d0) :: assign name d ds'
  end.

(** [df[name] = s]: replaces the column, or appends it as the last one.
    The series is aligned on the rows of the frame: a row for which it
    has no cell gets a missing one. *)
Definition setitem (df : DataFrame) (name : string) (s : Series) : DataFrame :=
  mkFrame (assign name (dtype_of s) (dtypes df))
          (imap (fun i row => <[name := default NA (values s !! i)]> row) (rows df)).

(** [pd.Series(dtype='datetime64[ns]')] *)
Definition empty_datetime_series : Series := mkSeries datetime64 [].

Definition is_datetime64_any_dtype (s : Series) : bool :=
  bool_decide (dtype_of s = datetime64).

(** Boolean indexing: [l[mask]] keeps the entries whose mask is [True]. *)
Fixpoint filter_mask {A} (mask : list bool) (l : list A) : list A :=
  match mask, l with
  | b :: mask', x :: l' => if b then x :: filter_mask mask' l' else filter_mask mask' l'
  | _, _ => []
  end.

(** [df[mask]] *)
Definition select (df : DataFrame) (mask : list bool) : DataFrame :=
  mkFrame (dtypes df) (filter_mask mask (rows df)).

(** [m1 & m2] *)
Definition mask_and (m1 m2 : list bool) : list bool := zip_with andb m1 m2.

(** [s == text] *)
Definition eq_str (s : Series) (text : string) : list bool :=
  (fun v => bool_decide (v = Str text)) <$> values s.

(** [s <= ts] and [s >= ts] on a datetime column: NaT compares false. *)
Definition le_ts (s : Series) (ts : Z) : list bool :=
  (fun v => match v with Ts d => d <=? ts | _ => false end) <$> values s.

Definition ge_ts (s : Series) (ts : Z) : list bool :=
  (fun v => match v with Ts d => ts <=? d | _ => false end) <$> values s.

(** [s.isin(collection)] *)
Definition isin (s : Series) (collection : gset value) : list bool :=
  (fun v => bool_decide (v ∈ collection)) <$> values s.

(** [s.dt.strftime("%Y%m%d")] *)
Definition dt_strftime (s : Series) : Series :=
  mkSeries object
    ((fun v => match v with Ts d => Str (Date.strftime_Ymd d) | _ => NA end) <$> values s).

(** [s.astype(str)] on an object column read with [dtype=str]: strings
    stay, NaN becomes the string nan. *)
Definition astype_str (s : Series) : Series :=
  mkSeries object
    ((fun v => match v with NA => Str "nan" | _ => v end) <$> values s).

(** [a.fillna(b)]: the cell of [b] in the same row where [a] is missing. *)
Definition fillna (a b : Series) : Series :=
  mkSeries (dtype_of a)
    (imap (fun i x => if isna x then default NA (values b !! i) else x) (values a)).

End Pd.

Module Group.

(** Order of the group keys; the keys of a column read with [dtype=str]
    are strings, compared as Python compares them. *)
Definition key_leb (a b : value) : bool :=
  match a, b with
  | Str x, Str y => String.leb x y
  | Str _, _ => true
  | _, Str _ => false
  | Ts x, Ts y => x <=? y
  | Ts _, _ => true
  | _, Ts _ => false
  | Td x, Td y => x <=? y
  | Td _, _ => true
  | _, Td _ => false
  | NA, NA => true
  end.

Fixpoint insert_key (k : value) (ks : list value) : list value :=
  match ks with
  | [] => [k]
  | k' :: ks' => if key_leb k k' then k :: ks else k' :: insert_key k ks'
  end.

Definition sort_keys (ks : list value) : list value :=
  foldr insert_key [] ks.

(** The keys of [df.groupby(name)]: the distinct values of the column
    that are not missing ([dropna=True]), sorted ([sort=True]). *)
Definition keys (key_column : list value) : list value :=
  sort_keys (remove_dups (filter (fun v => notna v = true) key_column)).

Definition key_mask (k : value) (key_column : list value) : list bool :=
  (fun v => bool_decide (v = k)) <$> key_column.

(** [df.groupby(name)], as the pairs the [for] loop receives. *)
Definition groupby (df : DataFrame) (name : string) : list (value * DataFrame) :=
  let key_column := values (Pd.column df name) in
  (fun k => (k, Pd.select df (key_mask k key_column))) <$> keys key_column.

(** [s.min()] and [s.max()] of a timedelta column: missing cells are
    skipped, and the result is NaT when nothing is left. *)
Definition durations (cells : list value) : list Z :=
  omap (fun v => match v with Td t => Some t | _ => None end) cells.

Definition fold1 (f : Z -> Z -> Z) (l : list Z) : value :=
  match l with
  | [] => NA
  | t :: l' => Td (foldl f t l')
  end.

Definition min (s : Series) : value := fold1 Z.min (durations (values s)).
Definition max (s : Series) : value := fold1 Z.max (durations (values s)).

End Group.

Module Merge.

Definition suffixed (on : string) (others : list string) (suffix name : string) : string :=
  if bool_decide (name ≠ on ∧ name ∈ others) then (name ++ suffix)%string else name.

(** The row made of a row of [left] and a row of [right]. *)
Definition merge_row (left right : DataFrame) (on : string)
    (l r : gmap string value) : gmap string value :=
  list_to_map
    (((fun n => (suffixed on (Pd.columns right) "_x" n, Pd.cell n l))
        <$> Pd.columns left) ++
     ((fun n => (suffixed on (Pd.columns left) "_y" n, Pd.cell n r))
        <$> filter (fun n => n ≠ on) (Pd.columns right))).

(** [left.merge(right, on=on, how="inner")] where both frames have the
    column [on]: the columns of [left], then those of [right] but the
    key, a name that both carry with the suffixes [_x] and [_y]; one row
    for every pair of rows with equal keys, in the order of the left
    rows. Two missing keys are equal for [merge]. *)
Definition merge (left right : DataFrame) (on : string) : DataFrame :=
  mkFrame
    (((fun c => (suffixed on (Pd.columns right) "_x" c.1, c.2)) <$> dtypes left) ++
     ((fun c => (suffixed on (Pd.columns left) "_y" c.1, c.2))
        <$> filter (fun c => c.1 ≠ on) (dtypes right)))
    (l ← rows left;
     r ← rows right;
     if bool_decide (Pd.cell on l = Pd.cell on r) then [merge_row left right on l r] else []).

End Merge.

(** ** The four tables of a feed *)

Record tables := mkTables {
  calendar_txt : DataFrame;
  calendar_dates_txt : DataFrame;
  trips_txt : DataFrame;
  stop_times_txt : DataFrame
}.

(** What a call of [calculate_service_hours_from_url] hands back. *)
Inductive returned :=
  | PyNone
  | PyFloat (hours : Q).

Definition required_files : list string :=
  ["calendar.txt"; "trips.txt"; "stop_times.txt"].

Definition calendar_columns : list string :=
  ["service_id"; "monday"; "tuesday"; "wednesday"; "thursday"; "friday";
   "saturday"; "sunday"; "start_date"; "end_date"].

Definition calendar_dates_columns : list string :=
  ["service_id"; "date"; "exception_type"].

Section Engine.

(** [pd.to_datetime(text, format="%Y%m%d", errors='coerce')] on one
    string: the day it denotes, or nothing (NaT) when pandas does not
    read it as a date. Which strings pandas accepts is left open. *)
Variable strptime_Ymd : string -> option Z.

Definition to_datetime_cell (v : value) : value :=
  match v with
  | Str text => from_option Ts NA (strptime_Ymd text)
  | Ts d => Ts d
  | _ => NA
  end.

Definition to_datetime (s : Series) : Series :=
  mkSeries datetime64 (to_datetime_cell <$> values s).

(** [if not is_datetime64_any_dtype(df[name]): df[name] = pd.to_datetime(...)] *)
Definition normalize_date_column (df : DataFrame) (name : string) : DataFrame :=
  if negb (Pd.is_datetime64_any_dtype (Pd.column df name))
  then Pd.setitem df name (to_datetime (Pd.column df name))
  else df.

(** [get_active_services_on_date]. The two frames are the caller's
    objects: the assignments into them are returned with the result. The
    result is the set [active_services]; the list made of it is only
    tested for emptiness and membership. *)
Definition get_active_services_on_date
    (target_date : Z) (calendar calendar_dates : DataFrame)
  : gset value * DataFrame * DataFrame :=
  let weekday := Date.day_name target_date in
  let target_date_yyyymmdd := Date.strftime_Ymd target_date in
  let target_date_pd := target_date in
  let '(base_services, calendar) :=
    if negb (Pd.empty calendar) &&
       forallb (fun col => Pd.has_column col calendar)
               [weekday; "start_date"; "end_date"; "service_id"]
    then
      let calendar := normalize_date_column calendar "start_date" in
      let calendar := normalize_date_column calendar "end_date" in
      let active_calendar :=
        Pd.select calendar
          (Pd.mask_and
             (Pd.mask_and (Pd.eq_str (Pd.column calendar weekday) "1")
                          (Pd.le_ts (Pd.column calendar "start_date") target_date_pd))
             (Pd.ge_ts (Pd.column calendar "end_date") target_date_pd)) in
      (list_to_set (values (Pd.column active_calendar "service_id")), calendar)
    else (∅, calendar) in
  let '(added_services, removed_services, calendar_dates) :=
    if negb (Pd.empty calendar_dates) &&
       forallb (fun col => Pd.has_column col calendar_dates)
               ["date"; "exception_type"; "service_id"]
    then
      let calendar_dates :=
        Pd.setitem calendar_dates "date_str"
          (if Pd.is_datetime64_any_dtype (Pd.column calendar_dates "date")
           then Pd.dt_strftime (Pd.column calendar_dates "date")
           else Pd.astype_str (Pd.column calendar_dates "date")) in
      let dated kind :=
        Pd.select calendar_dates
          (Pd.mask_and
             (Pd.eq_str (Pd.column calendar_dates "date_str") target_date_yyyymmdd)
             (Pd.eq_str (Pd.column calendar_dates "exception_type") kind)) in
      (list_to_set (values (Pd.column (dated "1") "service_id")),
       list_to_set (values (Pd.column (dated "2") "service_id")),
       calendar_dates)
    else (∅, ∅, calendar_dates) in
  ((base_services ∪ added_services) ∖ removed_services, calendar, calendar_dates).

(** ** The aggregation of one date *)

(** The body of both [for ... in merged.groupby(...)] loops. *)
Definition add_span (total_hours : Q) (group : DataFrame) : Q :=
  match Group.min (Pd.column group "departure_td"),
        Group.max (Pd.column group "arrival_td") with
  | Td start_td, Td end_td =>
      if start_td <? end_td then (total_hours + ((end_td - start_td) # 3600))%Q
      else total_hours
  | _, _ => total_hours
  end.

(** [df.dropna(subset=[a, b], inplace=True)] on the local frame. *)
Definition dropna2 (df : DataFrame) (a b : string) : DataFrame :=
  Pd.select df (Pd.mask_and (notna <$> values (Pd.column df a))
                            (notna <$> values (Pd.column df b))).

(** [s.apply(parse_gtfs_time)] *)
Definition apply_parse (s : Series) : outcome Series :=
  tds ← mapM parse_gtfs_time (values s); Ret (mkSeries timedelta64 tds).

(** Lines 157 to 170: the spans of the trips when no row has a block, of
    the blocks otherwise. *)
Definition add_group_hours (merged : DataFrame) (total_hours : Q) : Q :=
  if negb (Pd.has_column "block_id" merged) ||
     forallb isna (values (Pd.column merged "block_id"))
  then
    foldl (fun total_hours g => add_span total_hours g.2)
          total_hours (Group.groupby merged "trip_id")
  else
    foldl (fun total_hours g =>
             if Pd.empty g.2 then total_hours else add_span total_hours g.2)
          total_hours (Group.groupby merged "block_id").

(** The body of the loop over the dates, after the services are resolved:
    [continue] leaves the running total as it is. [trips] and
    [stop_times] are only read; [merged] is a frame of its own. *)
Definition add_date_hours
    (active_services : gset value) (trips stop_times : DataFrame) (total_hours : Q)
  : outcome Q :=
  if bool_decide (active_services = ∅) then Ret total_hours else
  service_id ← Pd.getitem trips "service_id";
  let trips_on_date := Pd.select trips (Pd.isin service_id active_services) in
  if Pd.empty trips_on_date then Ret total_hours else
  if negb (Pd.has_column "trip_id" trips_on_date) ||
     negb (Pd.has_column "trip_id" stop_times) then Ret total_hours else
  let merged := Merge.merge trips_on_date stop_times "trip_id" in
  if Pd.empty merged then Ret total_hours else
  arrival_time ← Pd.getitem merged "arrival_time";
  arrival_td ← apply_parse arrival_time;
  let merged := Pd.setitem merged "arrival_td" arrival_td in
  departure_time ← Pd.getitem merged "departure_time";
  departure_td ← apply_parse departure_time;
  let merged := Pd.setitem merged "departure_td" departure_td in
  let merged := dropna2 merged "arrival_td" "departure_td" in
  if Pd.empty merged then Ret total_hours else
  Ret (add_group_hours merged total_hours).

(** One turn of [for date_obj in target_dates]. *)
Definition date_step (t : tables) (total_hours : Q) (date_obj : Z) : tables * outcome Q :=
  let '(active_services, calendar, calendar_dates) :=
    get_active_services_on_date date_obj (calendar_txt t) (calendar_dates_txt t) in
  (mkTables calendar calendar_dates (trips_txt t) (stop_times_txt t),
   add_date_hours active_services (trips_txt t) (stop_times_txt t) total_hours).

Fixpoint date_loop (target_dates : list Z) (t : tables) (total_hours : Q)
  : tables * outcome Q :=
  match target_dates with
  | [] => (t, Ret total_hours)
  | date_obj :: rest =>
      match date_step t total_hours date_obj with
      | (t', Ret total_hours') => date_loop rest t' total_hours'
      | (t', Raise e) => (t', Raise e)
      end
  end.

(** ** The validation and the preprocessing *)

Definition missing_or_empty (gtfs_data : gmap string DataFrame) (name : string) : bool :=
  match gtfs_data !! name with
  | None => true
  | Some df => Pd.empty df
  end.

(** [for req_file in required_files]; [false] is the [return 0.0]. *)
Fixpoint check_required (files : list string) (gtfs_data : gmap string DataFrame)
  : gmap string DataFrame * bool :=
  match files with
  | [] => (gtfs_data, true)
  | req_file :: rest =>
      if missing_or_empty gtfs_data req_file then
        if String.eqb req_file "calendar.txt" &&
           negb (missing_or_empty gtfs_data "calendar_dates.txt")
        then check_required rest (<[req_file := Pd.new_frame calendar_columns]> gtfs_data)
        else (gtfs_data, false)
      else check_required rest gtfs_data
  end.

(** [gtfs_data[name]] for the four names, which are in the dict once
    [check_required] has let the call go on. *)
Definition load_tables (gtfs_data : gmap string DataFrame) : tables :=
  mkTables (default Pd.DataFrame0 (gtfs_data !! "calendar.txt"))
           (default Pd.DataFrame0 (gtfs_data !! "calendar_dates.txt"))
           (default Pd.DataFrame0 (gtfs_data !! "trips.txt"))
           (default Pd.DataFrame0 (gtfs_data !! "stop_times.txt")).

(** Lines 108 to 110. *)
Definition default_calendar_dates (gtfs_data : gmap string DataFrame)
  : gmap string DataFrame :=
  if bool_decide (gtfs_data !! "calendar_dates.txt" = None)
  then <["calendar_dates.txt" := Pd.new_frame calendar_dates_columns]> gtfs_data
  else gtfs_data.

(** The frames that the local names [calendar], [calendar_dates], [trips]
    and [stop_times] are bound to at lines 121 to 124. *)
Definition bound_tables (gtfs_data : gmap string DataFrame) : tables :=
  load_tables (check_required required_files (default_calendar_dates gtfs_data)).1.

(** Lines 127 to 132, on the calendar. *)
Definition preprocess_calendar (calendar : DataFrame) : DataFrame :=
  let calendar :=
    if negb (Pd.has_column "start_date" calendar)
    then Pd.setitem calendar "start_date" Pd.empty_datetime_series
    else calendar in
  let calendar :=
    if negb (Pd.has_column "end_date" calendar)
    then Pd.setitem calendar "end_date" Pd.empty_datetime_series
    else calendar in
  let calendar :=
    if Pd.has_column "start_date" calendar &&
       negb (Pd.is_datetime64_any_dtype (Pd.column calendar "start_date"))
    then Pd.setitem calendar "start_date" (to_datetime (Pd.column calendar "start_date"))
    else calendar in
  if Pd.has_column "end_date" calendar &&
     negb (Pd.is_datetime64_any_dtype (Pd.column calendar "end_date"))
  then Pd.setitem calendar "end_date" (to_datetime (Pd.column calendar "end_date"))
  else calendar.

(** Lines 133 and 134, on the stop times. Both columns are read before
    the first assignment, so a [KeyError] leaves the frame as it was. *)
Definition preprocess_stop_times (stop_times : DataFrame) : outcome DataFrame :=
  arrival ← Pd.getitem stop_times "arrival_time";
  departure ← Pd.getitem stop_times "departure_time";
  let stop_times := Pd.setitem stop_times "arrival_time" (Pd.fillna arrival departure) in
  departure ← Pd.getitem stop_times "departure_time";
  arrival ← Pd.getitem stop_times "arrival_time";
  Ret (Pd.setitem stop_times "departure_time" (Pd.fillna departure arrival)).

(** The body of [calculate_service_hours_from_url] from line 107 on, for
    the tables read from the archive and the two dates parsed: the
    tables as the call leaves them, and what it returns or raises. *)
Definition calculate_service_hours
    (gtfs_data : gmap string DataFrame) (start_date end_date : Z)
  : tables * outcome Q :=
  match check_required required_files (default_calendar_dates gtfs_data) with
  | (gtfs_data, false) => (load_tables gtfs_data, Ret 0%Q)
  | (gtfs_data, true) =>
      let t := load_tables gtfs_data in
      let calendar := preprocess_calendar (calendar_txt t) in
      match preprocess_stop_times (stop_times_txt t) with
      | Raise e =>
          (mkTables calendar (calendar_dates_txt t) (trips_txt t) (stop_times_txt t),
           Raise e)
      | Ret stop_times =>
          let t := mkTables calendar (calendar_dates_txt t) (trips_txt t) stop_times in
          if negb (Pd.has_column "arrival_time" stop_times) ||
             negb (Pd.has_column "departure_time" stop_times)
          then (t, Ret 0%Q)
          else date_loop (Date.date_range start_date end_date) t 0%Q
      end
  end.

(** The whole function: [None] when the download fails, otherwise the
    hours of the tables read. *)
Definition calculate_service_hours_from_url
    (downloaded : option (gmap string DataFrame)) (start_date end_date : Z)
  : outcome returned :=
  match downloaded with
  | None => Ret PyNone
  | Some gtfs_data =>
      total_hours ← (calculate_service_hours gtfs_data start_date end_date).2;
      Ret (PyFloat total_hours)
  end.

End Engine.

(** ** The specification's own wording

    The definitions of this module follow the sentences of the
    specification, row by row, and not the pandas expressions of the code;
    the theorems below compare the two. *)

Module Spec.

Section Resolver.

Variable strptime_Ymd : string -> option Z.

(** The date a calendar row carries in a column: a timestamp, or the
    date that a text of a column still held as text denotes. *)
Definition date_of (df : DataFrame) (name : string) (row : gmap string value)
  : option Z :=
  match Pd.cell name row with
  | Ts d => Some d
  | Str text =>
      if Pd.is_datetime64_any_dtype (Pd.column df name) then None
      else strptime_Ymd text
  | _ => None
  end.

(** The YYYYMMDD text of the date of an exception row. *)
Definition date_text (df : DataFrame) (row : gmap string value) : option string :=
  match Pd.cell "date" row with
  | Str text =>
      if Pd.is_datetime64_any_dtype (Pd.column df "date") then None else Some text
  | Ts d =>
      if Pd.is_datetime64_any_dtype (Pd.column df "date")
      then Some (Date.strftime_Ymd d) else None
  | _ => None
  end.

(** A table is usable when it is not empty and has the columns needed. *)
Definition usable (df : DataFrame) (needed : list string) : Prop :=
  Pd.empty df = false /\ forall name, name ∈ needed -> name ∈ Pd.columns df.

(** Base set: the weekday flag is true and
    [start_date <= date <= end_date], both bounds included. *)
Definition base (calendar : DataFrame) (date : Z) (service_id : value) : Prop :=
  usable calendar [Date.day_name date; "start_date"; "end_date"; "service_id"] /\
  exists row, row ∈ rows calendar /\
    Pd.cell "service_id" row = service_id /\
    Pd.cell (Date.day_name date) row = Str "1" /\
    exists start_date end_date,
      date_of calendar "start_date" row = Some start_date /\
      date_of calendar "end_date" row = Some end_date /\
      start_date <= date <= end_date.

(** Exceptions of one kind dated exactly [date]. *)
Definition exception (kind : string) (calendar_dates : DataFrame) (date : Z)
    (service_id : value) : Prop :=
  usable calendar_dates ["date"; "exception_type"; "service_id"] /\
  exists row, row ∈ rows calendar_dates /\
    Pd.cell "service_id" row = service_id /\
    date_text calendar_dates row = Some (Date.strftime_Ymd date) /\
    Pd.cell "exception_type" row = Str kind.

Definition added := exception "1".
Definition removed := exception "2".

(** Result = (base ∪ added) − removed. *)
Definition resolve (calendar calendar_dates : DataFrame) (date : Z)
    (service_id : value) : Prop :=
  (base calendar date service_id \/ added calendar_dates date service_id) /\
  ~ removed calendar_dates date service_id.

End Resolver.

Section Aggregator.

Definition Qsum (l : list Q) : Q := foldr Qplus 0%Q l.

(** The durations that the rows of a group carry in a column. *)
Definition times (name : string) (group : list (gmap string value)) : list Z :=
  omap (fun row => match Pd.cell name row with Td t => Some t | _ => None end) group.

Definition earliest (l : list Z) : option Z :=
  match l with
  | [] => None
  | t :: rest => Some (foldr Z.min t rest)
  end.

Definition latest (l : list Z) : option Z :=
  match l with
  | [] => None
  | t :: rest => Some (foldr Z.max t rest)
  end.

(** [span = max(arrival) − min(departure)], in hours, counted only if
    [span > 0]. *)
Definition span (group : list (gmap string value)) : Q :=
  match earliest (times "departure_td" group), latest (times "arrival_td" group) with
  | Some departure, Some arrival =>
      if departure <? arrival then (arrival - departure) # 3600 else 0%Q
  | _, _ => 0%Q
  end.

(** Some row of the joined set carries a block identifier that is not
    null. *)
Definition has_block (merged : DataFrame) : bool :=
  Pd.has_column "block_id" merged &&
  existsb notna (Pd.cell "block_id" <$> rows merged).

Definition grouping_key (merged : DataFrame) : string :=
  if has_block merged then "block_id" else "trip_id".

(** The identifiers of a column: its distinct values that are not null. *)
Definition identifiers (name : string) (merged : DataFrame) : list value :=
  remove_dups (filter (fun v => v ≠ NA) (Pd.cell name <$> rows merged)).

(** The rows grouped under one identifier. *)
Definition group_rows (name : string) (k : value) (merged : DataFrame)
  : list (gmap string value) :=
  filter (fun row => Pd.cell name row = k) (rows merged).

(** The hours of one date: the spans of the groups, one group for every
    identifier of the grouping key. *)
Definition aggregate (merged : DataFrame) : Q :=
  Qsum ((fun k => span (group_rows (grouping_key merged) k merged))
          <$> identifiers (grouping_key merged) merged).

(** The joined set without the rows whose block identifier is null. *)
Definition with_block_only (merged : DataFrame) : DataFrame :=
  mkFrame (dtypes merged)
          (filter (fun row => Pd.cell "block_id" row ≠ NA) (rows merged)).

End Aggregator.

Section Accumulator.

(** [trips] or [stop_times] is absent or empty, or [calendar] is while
    no exception exists. *)
Definition missing_required_table (gtfs_data : gmap string DataFrame) : Prop :=
  missing_or_empty gtfs_data "trips.txt" = true \/
  missing_or_empty gtfs_data "stop_times.txt" = true \/
  (missing_or_empty gtfs_data "calendar.txt" = true /\
   missing_or_empty gtfs_data "calendar_dates.txt" = true).

(** The computation is aborted: it hands back no number. *)
Definition aborts (result : outcome returned) : Prop :=
  match result with
  | Ret (PyFloat _) => False
  | _ => True
  end.

End Accumulator.

End Spec.

(** ** Auxiliary notions of the proofs

    The parts of [get_active_services_on_date] under names of their own,
    put together again by [get_active_unfold]. *)

Section Parts.

Variable strptime_Ymd : string -> option Z.

(** What the in-place normalisation of a date column does to one row. *)
Definition normalized_row (df : DataFrame) (n : string) (row : gmap string value)
  : gmap string value :=
  if Pd.is_datetime64_any_dtype (Pd.column df n) then row
  else <[n := to_datetime_cell strptime_Ymd (Pd.cell n row)]> row.

Definition calendar_guard (date : Z) (calendar : DataFrame) : bool :=
  negb (Pd.empty calendar) &&
  forallb (fun col => Pd.has_column col calendar)
          [Date.day_name date; "start_date"; "end_date"; "service_id"].

Definition exceptions_guard (calendar_dates : DataFrame) : bool :=
  negb (Pd.empty calendar_dates) &&
  forallb (fun col => Pd.has_column col calendar_dates)
          ["date"; "exception_type"; "service_id"].

(** The calendar after lines 53 to 56. *)
Definition normalized_calendar (calendar : DataFrame) : DataFrame :=
  normalize_date_column strptime_Ymd
    (normalize_date_column strptime_Ymd calendar "start_date") "end_date".

(** [base_services] after line 63, for a calendar already normalised. *)
Definition base_services (date : Z) (calendar : DataFrame) : gset value :=
  list_to_set (values (Pd.column
    (Pd.select calendar
       (Pd.mask_and
          (Pd.mask_and (Pd.eq_str (Pd.column calendar (Date.day_name date)) "1")
                       (Pd.le_ts (Pd.column calendar "start_date") date))
          (Pd.ge_ts (Pd.column calendar "end_date") date)))
    "service_id")).

(** The exceptions after lines 68 to 71. *)
Definition with_date_str (calendar_dates : DataFrame) : DataFrame :=
  Pd.setitem calendar_dates "date_str"
    (if Pd.is_datetime64_any_dtype (Pd.column calendar_dates "date")
     then Pd.dt_strftime (Pd.column calendar_dates "date")
     else Pd.astype_str (Pd.column calendar_dates "date")).

(** The cell of [date_str] that lines 69 or 71 compute for a row. *)
Definition date_str_cell (calendar_dates : DataFrame) (row : gmap string value) : value :=
  if Pd.is_datetime64_any_dtype (Pd.column calendar_dates "date")
  then match Pd.cell "date" row with Ts d => Str (Date.strftime_Ymd d) | _ => NA end
  else match Pd.cell "date" row with NA => Str "nan" | v => v end.

(** [added_services] and [removed_services], for exceptions that carry
    [date_str]. *)
Definition dated_services (date : Z) (kind : string) (calendar_dates : DataFrame)
  : gset value :=
  list_to_set (values (Pd.column
    (Pd.select calendar_dates
       (Pd.mask_and
          (Pd.eq_str (Pd.column calendar_dates "date_str") (Date.strftime_Ymd date))
          (Pd.eq_str (Pd.column calendar_dates "exception_type") kind)))
    "service_id")).

(** The calendar and the exceptions as a call leaves them. *)
Definition calendar_after (date : Z) (calendar : DataFrame) : DataFrame :=
  if calendar_guard date calendar then normalized_calendar calendar else calendar.

Definition exceptions_after (calendar_dates : DataFrame) : DataFrame :=
  if exceptions_guard calendar_dates then with_date_str calendar_dates
  else calendar_dates.

(** The set of services of a date, as a function of the two tables. *)
Definition active_services (date : Z) (calendar calendar_dates : DataFrame)
  : gset value :=
  (get_active_services_on_date strptime_Ymd date calendar calendar_dates).1.1.

(** The joined rows of a date that survive the time parsing: nothing on
    the paths that [continue]. *)
Definition joined (active_services : gset value) (trips stop_times : DataFrame)
  : outcome (option DataFrame) :=
  if bool_decide (active_services = ∅) then Ret None else
  service_id ← Pd.getitem trips "service_id";
  let trips_on_date := Pd.select trips (Pd.isin service_id active_services) in
  if Pd.empty trips_on_date then Ret None else
  if negb (Pd.has_column "trip_id" trips_on_date) ||
     negb (Pd.has_column "trip_id" stop_times) then Ret None else
  let merged := Merge.merge trips_on_date stop_times "trip_id" in
  if Pd.empty merged then Ret None else
  arrival_time ← Pd.getitem merged "arrival_time";
  arrival_td ← apply_parse arrival_time;
  let merged := Pd.setitem merged "arrival_td" arrival_td in
  departure_time ← Pd.getitem merged "departure_time";
  departure_td ← apply_parse departure_time;
  let merged := Pd.setitem merged "departure_td" departure_td in
  let merged := dropna2 merged "arrival_td" "departure_td" in
  if Pd.empty merged then Ret None else Ret (Some merged).

(** One turn of the loop over the dates as a function of the tables. *)
Definition date_total (t : tables) (total_hours : Q) (date : Z) : outcome Q :=
  add_date_hours
    (active_services date (calendar_txt t) (calendar_dates_txt t))
    (trips_txt t) (stop_times_txt t) total_hours.

Fixpoint range_total (dates : list Z) (t : tables) (total_hours : Q) : outcome Q :=
  match dates with
  | [] => Ret total_hours
  | date :: rest =>
      total_hours ← date_total t total_hours date; range_total rest t total_hours
  end.

(** The hours of one date, and of a list of dates. *)
Definition date_hours (t : tables) (date : Z) : outcome Q :=
  merged ← joined (active_services date (calendar_txt t) (calendar_dates_txt t))
                  (trips_txt t) (stop_times_txt t);
  Ret (from_option Spec.aggregate 0%Q merged).

Fixpoint range_hours (dates : list Z) (t : tables) : outcome Q :=
  match dates with
  | [] => Ret 0%Q
  | date :: rest =>
      hours ← date_hours t date; others ← range_hours rest t; Ret (hours + others)%Q
  end.

(** The tables the loop over the dates starts from: nothing when the
    call returns 0.0 before the loop. *)
Definition prepare (gtfs_data : gmap string DataFrame) : outcome (option tables) :=
  match check_required required_files (default_calendar_dates gtfs_data) with
  | (_, false) => Ret None
  | (gtfs_data, true) =>
      let t := load_tables gtfs_data in
      stop_times ← preprocess_stop_times (stop_times_txt t);
      if negb (Pd.has_column "arrival_time" stop_times) ||
         negb (Pd.has_column "departure_time" stop_times)
      then Ret None
      else Ret (Some (mkTables (preprocess_calendar strptime_Ymd (calendar_txt t))
                               (calendar_dates_txt t) (trips_txt t) stop_times))
  end.

End Parts.

(** Two outcomes agree: the same exception, or equal numbers of hours. *)
Definition outcome_equiv (a b : outcome Q) : Prop :=
  match a, b with
  | Ret x, Ret y => (x == y)%Q
  | Raise e, Raise e' => e = e'
  | _, _ => False
  end.

(** A frame after some assignments that touch the columns [names] only. *)
Definition same_except (names : list string) (before after : DataFrame) : Prop :=
  length (rows after) = length (rows before) /\
  forall n, n ∉ names ->
    Pd.has_column n after = Pd.has_column n before /\
    Pd.column after n = Pd.column before n.

(** Both date columns of a calendar hold timestamps. *)
Definition settled (calendar : DataFrame) : Prop :=
  Pd.is_datetime64_any_dtype (Pd.column calendar "start_date") = true /\
  Pd.is_datetime64_any_dtype (Pd.column calendar "end_date") = true.

(** The tables of a later turn of the loop, for the tables [t0] it started
    from: the exceptions may carry [date_str] already. *)
Definition later (t0 t : tables) : Prop :=
  calendar_txt t = calendar_txt t0 /\
  trips_txt t = trips_txt t0 /\
  stop_times_txt t = stop_times_txt t0 /\
  exceptions_after (calendar_dates_txt t) = exceptions_after (calendar_dates_txt t0).

(** The seconds that a [timedelta] can hold: its days stay within
    +-999999999. *)
Definition in_timedelta_range (seconds : Z) : Prop :=
  -999999999 <= seconds / 86400 <= 999999999.

(** ** A feed to run the engine on

    The feed of the specification's example: service S1 runs from Monday
    to Friday in January 2024; the trips T1 and T2 of block B1 leave at
    08:00 and 08:30 and arrive at 08:30 and 09:00. *)

Module Example.

(** A reader of YYYYMMDD for [strptime_Ymd]: eight digits that name a day
    of the calendar. *)
Definition strptime_Ymd (text : string) : option Z :=
  match Py.digit_of <$> list_ascii_of_string text with
  | [Some a; Some b; Some c; Some d; Some e; Some f; Some g; Some h] =>
      let y := 1000 * a + 100 * b + 10 * c + d in
      let m := 10 * e + f in
      let d := 10 * g + h in
      let day := Date.days_from_civil y m d in
      if bool_decide (Date.civil_from_days day = (y, m, d)) then Some day else None
  | _ => None
  end.

(** A frame as [read_csv(dtype=str)] makes it: object columns, a cell
    for every column in every row. *)
Definition frame (names : list string) (cells : list (list value)) : DataFrame :=
  mkFrame ((fun n => (n, object)) <$> names)
          ((fun r => list_to_map (zip names r)) <$> cells).

Definition calendar : DataFrame :=
  frame calendar_columns
    [[Str "S1"; Str "1"; Str "1"; Str "1"; Str "1"; Str "1"; Str "0"; Str "0";
      Str "20240101"; Str "20240131"]].

Definition trips : DataFrame :=
  frame ["trip_id"; "service_id"; "block_id"]
    [[Str "T1"; Str "S1"; Str "B1"]; [Str "T2"; Str "S1"; Str "B1"]].

Definition stop_times : DataFrame :=
  frame ["trip_id"; "arrival_time"; "departure_time"]
    [[Str "T1"; Str "08:00:00"; Str "08:00:00"];
     [Str "T1"; Str "08:30:00"; Str "08:30:00"];
     [Str "T2"; Str "08:30:00"; Str "08:30:00"];
     [Str "T2"; Str "09:00:00"; Str "09:00:00"]].

(** S1 does not run on 2024-01-03. *)
Definition calendar_dates : DataFrame :=
  frame calendar_dates_columns [[Str "S1"; Str "20240103"; Str "2"]].

Definition feed : gmap string DataFrame :=
  {[ "calendar.txt" := calendar; "trips.txt" := trips; "stop_times.txt" := stop_times ]}.

Definition feed_with_removal : gmap string DataFrame :=
  <["calendar_dates.txt" := calendar_dates]> feed.

(** The archive has no trips.txt. *)
Definition feed_without_trips : gmap string DataFrame :=
  {[ "calendar.txt" := calendar; "stop_times.txt" := stop_times ]}.

(** The archive has no calendar.txt and no calendar_dates.txt. *)
Definition feed_without_calendar : gmap string DataFrame :=
  {[ "trips.txt" := trips; "stop_times.txt" := stop_times ]}.

(** A trip over midnight. *)
Definition overnight_stop_times : DataFrame :=
  frame ["trip_id"; "arrival_time"; "departure_time"]
    [[Str "T1"; Str "23:50:00"; Str "23:50:00"];
     [Str "T1"; Str "24:10:00"; Str "24:10:00"]].

Definition overnight_feed : gmap string DataFrame :=
  <["stop_times.txt" := overnight_stop_times]> feed.

(** The rows of that trip as a group of the loop receives them. *)
Definition overnight_group : DataFrame :=
  mkFrame [("trip_id", object); ("departure_td", timedelta64); ("arrival_td", timedelta64)]
    [ {[ "trip_id" := Str "T1"; "departure_td" := Td 85800; "arrival_td" := Td 85800 ]};
      {[ "trip_id" := Str "T1"; "departure_td" := Td 87000; "arrival_td" := Td 87000 ]} ].

(** An hour field that [int] reads and [timedelta] refuses. *)
Definition overflow_stop_times : DataFrame :=
  frame ["trip_id"; "arrival_time"; "departure_time"]
    [[Str "T1"; Str "24000000000:00:00"; Str "08:00:00"]].

Definition overflow_feed : gmap string DataFrame :=
  <["stop_times.txt" := overflow_stop_times]> feed.

(** Stop times with an arrival that is missing. *)
Definition stop_times_with_gap : DataFrame :=
  frame ["trip_id"; "arrival_time"; "departure_time"]
    [[Str "T1"; NA; Str "08:00:00"];
     [Str "T1"; Str "08:30:00"; Str "08:30:00"]].

Definition feed_with_gap : gmap string DataFrame :=
  <["stop_times.txt" := stop_times_with_gap]> feed_with_removal.

(** Stop times without the column of the arrivals. *)
Definition stop_times_without_arrivals : DataFrame :=
  frame ["trip_id"; "departure_time"] [[Str "T1"; Str "08:00:00"]].

(** Joined rows after the parsing: T1 and T2 in block B1, T3 in no
    block. *)
Definition merged_with_blocks : DataFrame :=
  mkFrame [("trip_id", object); ("block_id", object);
           ("arrival_td", timedelta64); ("departure_td", timedelta64)]
    [ {[ "trip_id" := Str "T1"; "block_id" := Str "B1";
         "arrival_td" := Td 30600; "departure_td" := Td 28800 ]};
      {[ "trip_id" := Str "T2"; "block_id" := Str "B1";
         "arrival_td" := Td 32400; "departure_td" := Td 30600 ]};
      {[ "trip_id" := Str "T3"; "block_id" := NA;
         "arrival_td" := Td 43200; "departure_td" := Td 36000 ]} ].

(** The same trips, none of them in a block. *)
Definition merged_without_blocks : DataFrame :=
  mkFrame [("trip_id", object); ("block_id", object);
           ("arrival_td", timedelta64); ("departure_td", timedelta64)]
    [ {[ "trip_id" := Str "T1"; "block_id" := NA;
         "arrival_td" := Td 30600; "departure_td" := Td 28800 ]};
      {[ "trip_id" := Str "T2"; "block_id" := NA;
         "arrival_td" := Td 32400; "departure_td" := Td 30600 ]};
      {[ "trip_id" := Str "T3"; "block_id" := NA;
         "arrival_td" := Td 43200; "departure_td" := Td 36000 ]} ].

Definition day (y m d : Z) : Z := Date.days_from_civil y m d.

End Example.

(** Feeds for the edges of the code. *)
Module Edge.

(** Trips without the column [trip_id]. *)
Definition trips_without_trip_id : DataFrame :=
  Example.frame ["service_id"; "block_id"] [[Str "S1"; Str "B1"]].

Definition feed_without_trip_id : gmap string DataFrame :=
  <["trips.txt" := trips_without_trip_id]> Example.feed.

End Edge.

(** ** Reading the archive

    [read_gtfs_from_zip] and the lines of [calculate_service_hours_from_url]
    before the validation. The archive and pandas are outside: an open
    archive is the list of its member names and, for a name and an
    encoding, what [z.open(name)] followed by [pd.read_csv] gives. *)

(** [name.endswith(suffix)] *)
Definition endswith (suffix name : string) : bool :=
  let n := String.length name in
  let k := String.length suffix in
  (k <=? n)%nat && String.eqb (String.substring (n - k) k name) suffix.

(** What opening the archive or reading a member raises. *)
Inductive zip_exn :=
  | BadZipFile
  | UnicodeDecodeError
  | OtherException (what : string).

Inductive reading (A : Type) :=
  | Done (a : A)
  | Failed (e : zip_exn).
Arguments Done {A} a.
Arguments Failed {A} e.

Inductive encoding := utf_8 | latin1.

Record ZipFile := mkZip {
  namelist : list string;
  read_csv : string -> encoding -> reading DataFrame
}.

(** The body of [for name in z.namelist()]. A [UnicodeDecodeError] of the
    first reading leads to the second one, whose exceptions no handler
    catches; any other exception of the first reading leaves an empty
    frame under the name. *)
Fixpoint read_members (z : ZipFile) (names : list string)
    (gtfs_files : gmap string DataFrame) : reading (gmap string DataFrame) :=
  match names with
  | [] => Done gtfs_files
  | name :: rest =>
      if endswith ".txt" name then
        match read_csv z name utf_8 with
        | Done df => read_members z rest (<[name := df]> gtfs_files)
        | Failed UnicodeDecodeError =>
            match read_csv z name latin1 with
            | Done df => read_members z rest (<[name := df]> gtfs_files)
            | Failed e => Failed e
            end
        | Failed _ => read_members z rest (<[name := Pd.DataFrame0]> gtfs_files)
        end
      else read_members z rest gtfs_files
  end.

(** [read_gtfs_from_zip]: the content is a zip archive or [ZipFile]
    raises. *)
Definition read_gtfs_from_zip (content : option ZipFile)
  : reading (gmap string DataFrame) :=
  match content with
  | None => Failed BadZipFile
  | Some z => read_members z (namelist z) ∅
  end.

(** What [requests.get] and [raise_for_status] give: an exception, or the
    content of the response. *)
Inductive response :=
  | RequestFailed
  | Content (content : option ZipFile).

(** How a call of [calculate_service_hours_from_url] ends. *)
Inductive ending :=
  | Returned (result : returned)
  | Raised (e : exn)
  | RaisedReading (e : zip_exn).

(** [calculate_service_hours_from_url] from its first line: the request,
    the reading of the archive outside the [try], then the validation and
    the hours. *)
Definition calculate_service_hours_from_response
    (strptime_Ymd : string -> option Z) (r : response) (start_date end_date : Z)
  : ending :=
  match r with
  | RequestFailed => Returned PyNone
  | Content content =>
      match read_gtfs_from_zip content with
      | Failed e => RaisedReading e
      | Done gtfs_data =>
          match (calculate_service_hours strptime_Ymd gtfs_data start_date end_date).2 with
          | Ret total_hours => Returned (PyFloat total_hours)
          | Raise e => Raised e
          end
      end
  end.

Module Archive.

(** An archive whose trips.txt cannot be parsed, with a note that is no
    table. *)
Definition broken_trips : ZipFile :=
  mkZip ["calendar.txt"; "trips.txt"; "stop_times.txt"; "README.md"]
    (fun name _ =>
       if String.eqb name "calendar.txt" then Done Example.calendar
       else if String.eqb name "stop_times.txt" then Done Example.stop_times
       else Failed (OtherException "ParserError")).

(** An archive whose stop_times.txt is read as latin1. *)
Definition latin1_stop_times : ZipFile :=
  mkZip ["calendar.txt"; "trips.txt"; "stop_times.txt"]
    (fun name enc =>
       if String.eqb name "calendar.txt" then Done Example.calendar
       else if String.eqb name "trips.txt" then Done Example.trips
       else match enc with
            | utf_8 => Failed UnicodeDecodeError
            | latin1 => Done Example.stop_times
            end).

(** An archive that holds the feed in a folder. *)
Definition feed_in_folder : ZipFile :=
  mkZip ["feed/calendar.txt"; "feed/trips.txt"; "feed/stop_times.txt"]
    (fun name _ =>
       if String.eqb name "feed/calendar.txt" then Done Example.calendar
       else if String.eqb name "feed/trips.txt" then Done Example.trips
       else Done Example.stop_times).

End Archive.

(** ** The hours as doubles

    The engine above adds the hours as exact rationals. [Double] has the
    additions of lines 162 and 170 as the code does them, on binary64
    floats, for the properties that depend on their rounding; everything
    else (the services of a date, the join, the parsing, the grouping) is
    shared. *)

Module Double.

Import PrimFloat.

(** [td.total_seconds()] of a duration of whole seconds (a span is below
    2^53 seconds, so the conversion is exact). *)
Definition total_seconds (seconds : Z) : float :=
  if seconds <? 0 then opp (of_uint63 (Uint63.of_Z (- seconds)))
  else of_uint63 (Uint63.of_Z seconds).

(** The body of both [for ... in merged.groupby(...)] loops:
    [total_hours += (end_td - start_td).total_seconds() / 3600.0]. *)
Definition add_span (total_hours : float) (group : DataFrame) : float :=
  match Group.min (Pd.column group "departure_td"),
        Group.max (Pd.column group "arrival_td") with
  | Td start_td, Td end_td =>
      if start_td <? end_td
      then (total_hours + total_seconds (end_td - start_td) / 3600)%float
      else total_hours
  | _, _ => total_hours
  end.

(** Lines 157 to 170. *)
Definition add_group_hours (merged : DataFrame) (total_hours : float) : float :=
  if negb (Pd.has_column "block_id" merged) ||
     forallb isna (values (Pd.column merged "block_id"))
  then
    foldl (fun total_hours g => add_span total_hours g.2)
          total_hours (Group.groupby merged "trip_id")
  else
    foldl (fun total_hours g =>
             if Pd.empty g.2 then total_hours else add_span total_hours g.2)
          total_hours (Group.groupby merged "block_id").

(** The body of the loop over the dates, after the services are resolved. *)
Definition add_date_hours
    (active_services : gset value) (trips stop_times : DataFrame) (total_hours : float)
  : outcome float :=
  if bool_decide (active_services = ∅) then Ret total_hours else
  service_id ← Pd.getitem trips "service_id";
  let trips_on_date := Pd.select trips (Pd.isin service_id active_services) in
  if Pd.empty trips_on_date then Ret total_hours else
  if negb (Pd.has_column "trip_id" trips_on_date) ||
     negb (Pd.has_column "trip_id" stop_times) then Ret total_hours else
  let merged := Merge.merge trips_on_date stop_times "trip_id" in
  if Pd.empty merged then Ret total_hours else
  arrival_time ← Pd.getitem merged "arrival_time";
  arrival_td ← apply_parse arrival_time;
  let merged := Pd.setitem merged "arrival_td" arrival_td in
  departure_time ← Pd.getitem merged "departure_time";
  departure_td ← apply_parse departure_time;
  let merged := Pd.setitem merged "departure_td" departure_td in
  let merged := dropna2 merged "arrival_td" "departure_td" in
  if Pd.empty merged then Ret total_hours else
  Ret (add_group_hours merged total_hours).

Section Engine.

Variable strptime_Ymd : string -> option Z.

(** One turn of [for date_obj in target_dates]. *)
Definition date_step (t : tables) (total_hours : float) (date_obj : Z)
  : tables * outcome float :=
  let '(active_services, calendar, calendar_dates) :=
    get_active_services_on_date strptime_Ymd date_obj
      (calendar_txt t) (calendar_dates_txt t) in
  (mkTables calendar calendar_dates (trips_txt t) (stop_times_txt t),
   add_date_hours active_services (trips_txt t) (stop_times_txt t) total_hours).

Fixpoint date_loop (target_dates : list Z) (t : tables) (total_hours : float)
  : tables * outcome float :=
  match target_dates with
  | [] => (t, Ret total_hours)
  | date_obj :: rest =>
      match date_step t total_hours date_obj with
      | (t', Ret total_hours') => date_loop rest t' total_hours'
      | (t', Raise e) => (t', Raise e)
      end
  end.

(** The body of [calculate_service_hours_from_url] from line 107 on, with
    [total_hours] for the 0.0 that line 140 gives the running total; the
    returns of lines 119 and 135 are 0.0 whatever it is. *)
Definition calculate_service_hours_from (total_hours : float)
    (gtfs_data : gmap string DataFrame) (start_date end_date : Z)
  : tables * outcome float :=
  match check_required required_files (default_calendar_dates gtfs_data) with
  | (gtfs_data, false) => (load_tables gtfs_data, Ret 0%float)
  | (gtfs_data, true) =>
      let t := load_tables gtfs_data in
      let calendar := preprocess_calendar strptime_Ymd (calendar_txt t) in
      match preprocess_stop_times (stop_times_txt t) with
      | Raise e =>
          (mkTables calendar (calendar_dates_txt t) (trips_txt t) (stop_times_txt t),
           Raise e)
      | Ret stop_times =>
          let t := mkTables calendar (calendar_dates_txt t) (trips_txt t) stop_times in
          if negb (Pd.has_column "arrival_time" stop_times) ||
             negb (Pd.has_column "departure_time" stop_times)
          then (t, Ret 0%float)
          else date_loop (Date.date_range start_date end_date) t total_hours
      end
  end.

(** The function as it is: the running total starts from 0.0. *)
Definition calculate_service_hours
    (gtfs_data : gmap string DataFrame) (start_date end_date : Z)
  : tables * outcome float :=
  calculate_service_hours_from 0%float gtfs_data start_date end_date.

(** One turn of the loop, and the loop, as functions of the tables. *)
Definition date_total (t : tables) (total_hours : float) (date : Z) : outcome float :=
  add_date_hours
    (active_services strptime_Ymd date (calendar_txt t) (calendar_dates_txt t))
    (trips_txt t) (stop_times_txt t) total_hours.

Fixpoint range_total (dates : list Z) (t : tables) (total_hours : float) : outcome float :=
  match dates with
  | [] => Ret total_hours
  | date :: rest =>
      total_hours ← date_total t total_hours date; range_total rest t total_hours
  end.

End Engine.

End Double.

(** A feed whose hours do not add up in doubles: the trips of S1, S2 and
    S3 take 6, 12 and 18 minutes and run on Monday 2024-01-01, on Tuesday
    and on Wednesday. *)
Module Rounding.

Import PrimFloat.

Definition calendar : DataFrame :=
  Example.frame calendar_columns
    [[Str "S1"; Str "1"; Str "0"; Str "0"; Str "0"; Str "0"; Str "0"; Str "0";
      Str "20240101"; Str "20240131"];
     [Str "S2"; Str "0"; Str "1"; Str "0"; Str "0"; Str "0"; Str "0"; Str "0";
      Str "20240101"; Str "20240131"];
     [Str "S3"; Str "0"; Str "0"; Str "1"; Str "0"; Str "0"; Str "0"; Str "0";
      Str "20240101"; Str "20240131"]].

Definition trips : DataFrame :=
  Example.frame ["trip_id"; "service_id"]
    [[Str "T1"; Str "S1"]; [Str "T2"; Str "S2"]; [Str "T3"; Str "S3"]].

Definition stop_times : DataFrame :=
  Example.frame ["trip_id"; "arrival_time"; "departure_time"]
    [[Str "T1"; Str "08:00:00"; Str "08:00:00"];
     [Str "T1"; Str "08:06:00"; Str "08:06:00"];
     [Str "T2"; Str "08:00:00"; Str "08:00:00"];
     [Str "T2"; Str "08:12:00"; Str "08:12:00"];
     [Str "T3"; Str "08:00:00"; Str "08:00:00"];
     [Str "T3"; Str "08:18:00"; Str "08:18:00"]].

Definition feed : gmap string DataFrame :=
  {[ "calendar.txt" := calendar; "trips.txt" := trips; "stop_times.txt" := stop_times ]}.


End Rounding.

(** * Properties *)

(** ** The time parser *)

Lemma parse_missing : parse_gtfs_time NA = Ret NA.
Proof. reflexivity. Qed.

Lemma parse_empty : parse_gtfs_time (Str "") = Ret NA.
Proof. reflexivity. Qed.

(** A string whose fields are not exactly three gives the missing result. *)
Lemma parse_wrong_field_count (text : string) :
  length (Py.split ":" text) ≠ 3%nat -> parse_gtfs_time (Str text) = Ret NA.
Proof.
  intros Hlen. unfold parse_gtfs_time.
  destruct (Py.split ":" text) as [|a [|b [|c [|e l]]]]; simpl in *; try done;
    repeat case_match; done.
Qed.

(** A string with a field that [int] refuses gives the missing result. *)
Lemma parse_non_integer (text field : string) :
  field ∈ Py.split ":" text -> Py.int field = None ->
  parse_gtfs_time (Str text) = Ret NA.
Proof.
  intros Hin Hint. unfold parse_gtfs_time.
  destruct (Py.split ":" text) as [|a [|b [|c [|e l]]]]; simpl; try done.
  - by destruct (Py.int a).
  - by destruct (Py.int a), (Py.int b).
  - destruct (Py.int a) eqn:Ea, (Py.int b) eqn:Eb, (Py.int c) eqn:Ec; try done.
    set_unfold. destruct Hin as [->|[->|[->|[]]]]; congruence.
  - by destruct (Py.int a), (Py.int b), (Py.int c).
Qed.

(** Three integer fields within the range of [timedelta] give the duration
    of their raw magnitudes. *)
Lemma parse_three_integers (text a b c : string) (h m s : Z) :
  Py.split ":" text = [a; b; c] ->
  Py.int a = Some h -> Py.int b = Some m -> Py.int c = Some s ->
  in_timedelta_range (h * 3600 + m * 60 + s) ->
  parse_gtfs_time (Str text) = Ret (Td (h * 3600 + m * 60 + s)).
Proof.
  intros Hsplit Ha Hb Hc [Hlo Hhi]. unfold parse_gtfs_time.
  rewrite Hsplit. simpl. rewrite Ha, Hb, Hc. unfold Py.timedelta.
  destruct (Z.leb_spec (-999999999) ((h * 3600 + m * 60 + s) / 86400)); [|lia].
  destruct (Z.leb_spec ((h * 3600 + m * 60 + s) / 86400) 999999999); [|lia].
  reflexivity.
Qed.

(** The parser returns a duration, returns the missing result, or lets an
    exception of [timedelta] or of the missing [split] through. *)
Lemma parse_cases (t : value) :
  (exists secs, parse_gtfs_time t = Ret (Td secs)) \/
  parse_gtfs_time t = Ret NA \/
  (exists e, parse_gtfs_time t = Raise e).
Proof.
  destruct t as [|text| |]; simpl; eauto.
  repeat case_match; eauto.
  unfold Py.timedelta. case_match; simpl; eauto.
Qed.

(** ** Frames *)

Lemma filter_mask_fmap {A} (f : A -> bool) (l : list A) :
  Pd.filter_mask (f <$> l) l = filter (fun x => f x = true) l.
Proof.
  induction l as [|x l IH]; [done|]. simpl.
  rewrite filter_cons. case_decide as Hx; destruct (f x); simpl; try done.
  by f_equal.
Qed.

Lemma filter_mask_fmap_comm {A B} (g : A -> B) (mask : list bool) (l : list A) :
  Pd.filter_mask mask (g <$> l) = g <$> Pd.filter_mask mask l.
Proof.
  revert l. induction mask as [|b mask IH]; intros [|x l]; simpl; try done.
  destruct b; simpl; by rewrite IH.
Qed.

Lemma mask_and_fmap {A} (f g : A -> bool) (l : list A) :
  Pd.mask_and (f <$> l) (g <$> l) = (fun x => f x && g x) <$> l.
Proof. induction l; [done|]. unfold Pd.mask_and in *. simpl. by f_equal. Qed.

Lemma values_column (df : DataFrame) (name : string) :
  values (Pd.column df name) = Pd.cell name <$> rows df.
Proof. reflexivity. Qed.

Lemma eq_str_column (df : DataFrame) (name text : string) :
  Pd.eq_str (Pd.column df name) text =
  (fun row => bool_decide (Pd.cell name row = Str text)) <$> rows df.
Proof. unfold Pd.eq_str. rewrite values_column, <- list_fmap_compose. done. Qed.

Lemma lookup_dtype_assign (n m : string) (d : dtype) (ds : list (string * dtype)) :
  Pd.lookup_dtype n (Pd.assign m d ds) =
  if decide (n = m) then Some d else Pd.lookup_dtype n ds.
Proof.
  induction ds as [|[k d0] ds IH]; simpl.
  - destruct (String.eqb_spec m n); case_decide; congruence.
  - destruct (String.eqb_spec k m) as [->|Hkm]; simpl.
    + destruct (String.eqb_spec m n); case_decide; congruence.
    + destruct (String.eqb_spec k n) as [Hkn|Hkn]; [|done].
      case_decide; congruence.
Qed.

Lemma assign_fst (m : string) (d : dtype) (ds : list (string * dtype)) (n : string) :
  n ∈ (Pd.assign m d ds).*1 <-> n ∈ ds.*1 \/ n = m.
Proof.
  induction ds as [|[k d0] ds IH]; simpl.
  - set_solver.
  - destruct (String.eqb_spec k m) as [->|Hkm]; simpl; set_solver.
Qed.

Lemma assign_assign (m : string) (d d' : dtype) (ds : list (string * dtype)) :
  Pd.assign m d (Pd.assign m d' ds) = Pd.assign m d ds.
Proof.
  induction ds as [|[k d0] ds IH]; simpl.
  - by rewrite String.eqb_refl.
  - destruct (String.eqb_spec k m) as [->|Hkm]; simpl.
    + by rewrite String.eqb_refl.
    + destruct (String.eqb_spec k m); [done|]. by rewrite IH.
Qed.

Lemma has_column_setitem (df : DataFrame) (m n : string) (s : Series) :
  Pd.has_column n (Pd.setitem df m s) = Pd.has_column n df || bool_decide (n = m).
Proof.
  unfold Pd.has_column, Pd.columns, Pd.setitem. simpl.
  pose proof (assign_fst m (dtype_of s) (dtypes df) n) as H.
  repeat case_bool_decide; simpl; tauto.
Qed.

Lemma cell_insert (n m : string) (v : value) (row : gmap string value) :
  Pd.cell n (<[m := v]> row) = if decide (n = m) then v else Pd.cell n row.
Proof.
  unfold Pd.cell. case_decide as H.
  - subst. by rewrite lookup_insert_eq.
  - by rewrite lookup_insert_ne.
Qed.

(** Assigning a series computed row by row. *)
Lemma rows_setitem (df : DataFrame) (n : string) (s : Series) (g : gmap string value -> value) :
  values s = g <$> rows df ->
  rows (Pd.setitem df n s) = (fun row => <[n := g row]> row) <$> rows df.
Proof.
  intros Hs. unfold Pd.setitem. simpl. rewrite Hs.
  apply list_eq. intros i.
  rewrite list_lookup_imap, !list_lookup_fmap.
  by destruct (rows df !! i).
Qed.

Lemma column_dtype (df : DataFrame) (n : string) :
  dtype_of (Pd.column df n) = default object (Pd.lookup_dtype n (dtypes df)).
Proof. reflexivity. Qed.

Lemma getitem_column (df : DataFrame) (n : string) :
  Pd.has_column n df = true -> Pd.getitem df n = Ret (Pd.column df n).
Proof. intros H. unfold Pd.getitem. by rewrite H. Qed.

Lemma empty_setitem (df : DataFrame) (n : string) (s : Series) :
  Pd.empty df = false -> Pd.empty (Pd.setitem df n s) = false.
Proof.
  unfold Pd.empty, Pd.setitem. simpl.
  destruct (rows df) as [|r l]; [done|]. simpl.
  destruct (dtypes df) as [|[k d] ds]; [done|]. simpl.
  by destruct (String.eqb k n).
Qed.

Lemma forallb_has_column (df : DataFrame) (names : list string) :
  forallb (fun col => Pd.has_column col df) names = true <->
  forall name, name ∈ names -> name ∈ Pd.columns df.
Proof.
  rewrite forallb_forall. unfold Pd.has_column. split; intros H name Hin.
  - apply list_elem_of_In in Hin. apply H in Hin. by apply bool_decide_eq_true in Hin.
  - apply bool_decide_eq_true. apply H. by apply list_elem_of_In.
Qed.

Lemma day_name_cases (date : Z) : Date.day_name date ∈ Date.day_names.
Proof.
  unfold Date.day_name.
  destruct (Nat.lt_ge_cases (Z.to_nat ((date + 3) mod 7)) (length Date.day_names)) as [H|H].
  - apply list_elem_of_In. by apply nth_In.
  - rewrite nth_overflow by done. set_solver.
Qed.

Lemma day_name_not_date (date : Z) :
  Date.day_name date ≠ "start_date" /\ Date.day_name date ≠ "end_date".
Proof.
  pose proof (day_name_cases date) as H. unfold Date.day_names in H.
  set_unfold. split; intros E; rewrite E in H; naive_solver.
Qed.

Lemma strftime_not_nan (date : Z) : Date.strftime_Ymd date ≠ "nan".
Proof.
  unfold Date.strftime_Ymd. destruct (Date.civil_from_days date) as [[y m] d].
  discriminate.
Qed.

(** ** The service calendar resolver *)

Section ResolverFacts.

Variable strptime_Ymd : string -> option Z.

#[local] Abbreviation normalize_date_column := (normalize_date_column strptime_Ymd).
#[local] Abbreviation normalized_row := (normalized_row strptime_Ymd).
#[local] Abbreviation get_active_services_on_date :=
  (get_active_services_on_date strptime_Ymd).

Lemma rows_normalize (df : DataFrame) (n : string) :
  rows (normalize_date_column df n) = normalized_row df n <$> rows df.
Proof.
  unfold normalize_date_column, normalized_row.
  destruct (Pd.is_datetime64_any_dtype (Pd.column df n)); simpl negb; cbv iota.
  - by rewrite list_fmap_id.
  - apply rows_setitem. simpl. by rewrite <- list_fmap_compose.
Qed.

Lemma dtype_normalize (df : DataFrame) (n : string) :
  Pd.is_datetime64_any_dtype (Pd.column (normalize_date_column df n) n) = true.
Proof.
  unfold normalize_date_column.
  destruct (Pd.is_datetime64_any_dtype (Pd.column df n)) eqn:E; simpl; [done|].
  unfold Pd.is_datetime64_any_dtype. rewrite column_dtype. simpl.
  rewrite lookup_dtype_assign, decide_True by done. done.
Qed.

Lemma dtype_normalize_other (df : DataFrame) (n m : string) :
  m ≠ n ->
  dtype_of (Pd.column (normalize_date_column df n) m) = dtype_of (Pd.column df m).
Proof.
  intros Hne. unfold normalize_date_column.
  destruct (Pd.is_datetime64_any_dtype (Pd.column df n)); simpl; [done|].
  by rewrite lookup_dtype_assign, decide_False.
Qed.

Lemma cell_normalized_other (df : DataFrame) (n m : string) (row : gmap string value) :
  m ≠ n -> Pd.cell m (normalized_row df n row) = Pd.cell m row.
Proof.
  intros Hne. unfold normalized_row.
  destruct (Pd.is_datetime64_any_dtype (Pd.column df n)); [done|].
  by rewrite cell_insert, decide_False.
Qed.

(** The normalised cell is a timestamp exactly when the row carries a date. *)
Lemma cell_normalized_date (df : DataFrame) (n : string) (row : gmap string value) (d : Z) :
  Pd.cell n (normalized_row df n row) = Ts d <-> Spec.date_of strptime_Ymd df n row = Some d.
Proof.
  unfold normalized_row, Spec.date_of.
  destruct (Pd.is_datetime64_any_dtype (Pd.column df n)).
  - destruct (Pd.cell n row); naive_solver.
  - rewrite cell_insert, decide_True by done.
    destruct (Pd.cell n row) as [|text| |]; simpl; try naive_solver.
    destruct (strptime_Ymd text); simpl; naive_solver.
Qed.

End ResolverFacts.

Lemma le_ts_column (df : DataFrame) (name : string) (ts : Z) :
  Pd.le_ts (Pd.column df name) ts =
  (fun row => match Pd.cell name row with Ts d => d <=? ts | _ => false end) <$> rows df.
Proof. unfold Pd.le_ts. by rewrite values_column, <- list_fmap_compose. Qed.

Lemma ge_ts_column (df : DataFrame) (name : string) (ts : Z) :
  Pd.ge_ts (Pd.column df name) ts =
  (fun row => match Pd.cell name row with Ts d => ts <=? d | _ => false end) <$> rows df.
Proof. unfold Pd.ge_ts. by rewrite values_column, <- list_fmap_compose. Qed.

(** The cells of a column in the rows that a row-wise mask keeps. *)
Lemma elem_of_selected (df : DataFrame) (p : gmap string value -> bool) (n : string) (v : value) :
  v ∈ values (Pd.column (Pd.select df (p <$> rows df)) n) <->
  exists row, row ∈ rows df /\ p row = true /\ Pd.cell n row = v.
Proof.
  rewrite values_column. unfold Pd.select. simpl. rewrite filter_mask_fmap.
  rewrite list_elem_of_fmap. setoid_rewrite list_elem_of_filter. naive_solver.
Qed.

Section Resolver.

Variable strptime_Ymd : string -> option Z.

#[local] Abbreviation normalize_date_column := (normalize_date_column strptime_Ymd).
#[local] Abbreviation normalized_row := (normalized_row strptime_Ymd).
#[local] Abbreviation get_active_services_on_date :=
  (get_active_services_on_date strptime_Ymd).

#[local] Abbreviation normalized_calendar := (normalized_calendar strptime_Ymd).
#[local] Abbreviation base_services := (base_services).
#[local] Abbreviation calendar_after := (calendar_after strptime_Ymd).

Lemma get_active_unfold (date : Z) (calendar calendar_dates : DataFrame) :
  get_active_services_on_date date calendar calendar_dates =
  (((if calendar_guard date calendar
      then base_services date (normalized_calendar calendar) else ∅) ∪
     (if exceptions_guard calendar_dates
      then dated_services date "1" (with_date_str calendar_dates) else ∅)) ∖
    (if exceptions_guard calendar_dates
     then dated_services date "2" (with_date_str calendar_dates) else ∅ : gset value),
   calendar_after date calendar,
   exceptions_after calendar_dates).
Proof.
  unfold get_active_services_on_date, calendar_after, exceptions_after.
  fold (calendar_guard date calendar). fold (exceptions_guard calendar_dates).
  by destruct (calendar_guard date calendar), (exceptions_guard calendar_dates).
Qed.

Lemma rows_normalized_calendar (calendar : DataFrame) :
  rows (normalized_calendar calendar) =
  (fun row => normalized_row (normalize_date_column calendar "start_date") "end_date"
                (normalized_row calendar "start_date" row)) <$> rows calendar.
Proof.
  unfold normalized_calendar. rewrite !rows_normalize, <- list_fmap_compose. done.
Qed.

Lemma calendar_guard_usable (date : Z) (calendar : DataFrame) :
  calendar_guard date calendar = true <->
  Spec.usable calendar [Date.day_name date; "start_date"; "end_date"; "service_id"].
Proof.
  unfold calendar_guard, Spec.usable.
  rewrite andb_true_iff, negb_true_iff, forallb_has_column. done.
Qed.

Lemma exceptions_guard_usable (calendar_dates : DataFrame) :
  exceptions_guard calendar_dates = true <->
  Spec.usable calendar_dates ["date"; "exception_type"; "service_id"].
Proof.
  unfold exceptions_guard, Spec.usable.
  rewrite andb_true_iff, negb_true_iff, forallb_has_column. done.
Qed.

(** The weekly pattern, read off the rows of the caller's calendar. *)
Lemma elem_of_base_services (date : Z) (calendar : DataFrame) (service_id : value) :
  service_id ∈ base_services date (normalized_calendar calendar) <->
  exists row, row ∈ rows calendar /\
    Pd.cell "service_id" row = service_id /\
    Pd.cell (Date.day_name date) row = Str "1" /\
    exists start_date end_date,
      Spec.date_of strptime_Ymd calendar "start_date" row = Some start_date /\
      Spec.date_of strptime_Ymd calendar "end_date" row = Some end_date /\
      start_date <= date <= end_date.
Proof.
  destruct (day_name_not_date date) as [Hs He].
  unfold base_services. rewrite elem_of_list_to_set.
  rewrite eq_str_column, le_ts_column, ge_ts_column, !mask_and_fmap.
  rewrite elem_of_selected, rows_normalized_calendar.
  setoid_rewrite list_elem_of_fmap.
  set (cal1 := normalize_date_column calendar "start_date").
  assert (Hend : forall row d,
    Pd.cell "end_date"
      (normalized_row cal1 "end_date" (normalized_row calendar "start_date" row)) = Ts d <->
    Spec.date_of strptime_Ymd calendar "end_date" row = Some d).
  { intros row d. rewrite cell_normalized_date. unfold Spec.date_of.
    rewrite cell_normalized_other by done.
    unfold Pd.is_datetime64_any_dtype. unfold cal1.
    by rewrite dtype_normalize_other. }
  assert (Hstart : forall row d,
    Pd.cell "start_date"
      (normalized_row cal1 "end_date" (normalized_row calendar "start_date" row)) = Ts d <->
    Spec.date_of strptime_Ymd calendar "start_date" row = Some d).
  { intros row d. rewrite cell_normalized_other by done. apply cell_normalized_date. }
  assert (Hother : forall row n, n ≠ "start_date" -> n ≠ "end_date" ->
    Pd.cell n (normalized_row cal1 "end_date" (normalized_row calendar "start_date" row))
    = Pd.cell n row).
  { intros row n H1 H2. by rewrite !cell_normalized_other. }
  split.
  - intros (row' & (row & -> & Hin) & Hp & Hsid).
    exists row. split; [done|].
    rewrite Hother in Hsid by done. split; [done|].
    rewrite !andb_true_iff, bool_decide_eq_true, Hother in Hp by done.
    destruct Hp as [[Hflag Hle] Hge]. split; [done|].
    destruct (Pd.cell "start_date" _) as [| |s|] eqn:Es; try done.
    destruct (Pd.cell "end_date" _) as [| |e|] eqn:Ee; try done.
    exists s, e. rewrite <- Hstart, <- Hend. repeat split; try done; lia.
  - intros (row & Hin & Hsid & Hflag & s & e & Hsd & Hed & Hle).
    eexists. split; [by exists row|].
    split; [|by rewrite Hother].
    apply Hstart in Hsd. apply Hend in Hed.
    rewrite Hsd, Hed, Hother by done.
    rewrite !andb_true_iff, bool_decide_eq_true. repeat split; try done; lia.
Qed.

(** The text that line 69 or 71 writes into [date_str] for one row. *)
Lemma rows_with_date_str (calendar_dates : DataFrame) :
  rows (with_date_str calendar_dates) =
  (fun row => <["date_str" := date_str_cell calendar_dates row]> row)
    <$> rows calendar_dates.
Proof.
  unfold with_date_str. apply rows_setitem. unfold date_str_cell.
  destruct (Pd.is_datetime64_any_dtype (Pd.column calendar_dates "date")); simpl;
    rewrite <- list_fmap_compose; apply list_fmap_ext; intros i row _; simpl;
    by destruct (Pd.cell "date" row).
Qed.

Lemma date_str_cell_dated (calendar_dates : DataFrame) (row : gmap string value) (date : Z) :
  date_str_cell calendar_dates row = Str (Date.strftime_Ymd date) <->
  Spec.date_text calendar_dates row = Some (Date.strftime_Ymd date).
Proof.
  pose proof (strftime_not_nan date) as Hnan.
  unfold date_str_cell, Spec.date_text.
  destruct (Pd.is_datetime64_any_dtype (Pd.column calendar_dates "date")),
    (Pd.cell "date" row); split; intros H; try by simplify_eq.
  all: congruence.
Qed.

(** The exceptions of one kind, read off the rows of the caller's table. *)
Lemma elem_of_dated_services (date : Z) (kind : string) (calendar_dates : DataFrame)
    (service_id : value) :
  service_id ∈ dated_services date kind (with_date_str calendar_dates) <->
  exists row, row ∈ rows calendar_dates /\
    Pd.cell "service_id" row = service_id /\
    Spec.date_text calendar_dates row = Some (Date.strftime_Ymd date) /\
    Pd.cell "exception_type" row = Str kind.
Proof.
  unfold dated_services. rewrite elem_of_list_to_set.
  rewrite !eq_str_column, mask_and_fmap, elem_of_selected, rows_with_date_str.
  setoid_rewrite list_elem_of_fmap.
  split.
  - intros (row' & (row & -> & Hin) & Hp & Hsid).
    exists row. split; [done|].
    rewrite cell_insert, decide_False in Hsid by done. split; [done|].
    rewrite andb_true_iff, !bool_decide_eq_true, !cell_insert in Hp.
    rewrite decide_True, decide_False in Hp by done.
    destruct Hp as [Hdate Hkind]. by apply date_str_cell_dated in Hdate.
  - intros (row & Hin & Hsid & Hdate & Hkind).
    eexists. split; [by exists row|].
    rewrite andb_true_iff, !bool_decide_eq_true, !cell_insert.
    rewrite decide_True, !decide_False by done.
    by apply date_str_cell_dated in Hdate.
Qed.

Lemma active_services_resolve (date : Z) (calendar calendar_dates : DataFrame)
    (service_id : value) :
  service_id ∈ active_services strptime_Ymd date calendar calendar_dates <->
  Spec.resolve strptime_Ymd calendar calendar_dates date service_id.
Proof.
  unfold active_services. rewrite get_active_unfold. simpl.
  unfold Spec.resolve, Spec.added, Spec.removed, Spec.base, Spec.exception.
  rewrite <- calendar_guard_usable, <- exceptions_guard_usable.
  rewrite elem_of_difference, elem_of_union.
  destruct (calendar_guard date calendar), (exceptions_guard calendar_dates);
    rewrite ?elem_of_base_services, ?elem_of_dated_services, ?elem_of_empty;
    naive_solver.
Qed.

End Resolver.

(** ** The aggregation of one date *)

Lemma foldr_min_shift (a x : Z) (l : list Z) :
  foldr Z.min (Z.min a x) l = Z.min x (foldr Z.min a l).
Proof. induction l as [|y l IH]; simpl; [lia|]. rewrite IH. lia. Qed.

Lemma foldr_max_shift (a x : Z) (l : list Z) :
  foldr Z.max (Z.max a x) l = Z.max x (foldr Z.max a l).
Proof. induction l as [|y l IH]; simpl; [lia|]. rewrite IH. lia. Qed.

Lemma foldl_min_foldr (a : Z) (l : list Z) : foldl Z.min a l = foldr Z.min a l.
Proof.
  revert a. induction l as [|x l IH]; intros a; simpl; [done|].
  by rewrite IH, foldr_min_shift.
Qed.

Lemma foldl_max_foldr (a : Z) (l : list Z) : foldl Z.max a l = foldr Z.max a l.
Proof.
  revert a. induction l as [|x l IH]; intros a; simpl; [done|].
  by rewrite IH, foldr_max_shift.
Qed.

Lemma omap_fmap {A B C} (f : B -> option C) (g : A -> B) (l : list A) :
  omap f (g <$> l) = omap (fun x => f (g x)) l.
Proof. induction l as [|x l IH]; csimpl; [done|]. by rewrite IH. Qed.

Lemma group_min_earliest (df : DataFrame) (name : string) :
  Group.min (Pd.column df name) =
  from_option Td NA (Spec.earliest (Spec.times name (rows df))).
Proof.
  unfold Group.min, Group.durations, Spec.times. rewrite values_column.
  rewrite omap_fmap.
  destruct (omap _ (rows df)) as [|t l]; simpl; [done|].
  by rewrite foldl_min_foldr.
Qed.

Lemma group_max_latest (df : DataFrame) (name : string) :
  Group.max (Pd.column df name) =
  from_option Td NA (Spec.latest (Spec.times name (rows df))).
Proof.
  unfold Group.max, Group.durations, Spec.times. rewrite values_column.
  rewrite omap_fmap.
  destruct (omap _ (rows df)) as [|t l]; simpl; [done|].
  by rewrite foldl_max_foldr.
Qed.

(** A group adds its span, and nothing when the span is not positive. *)
Lemma add_span_span (total_hours : Q) (group : DataFrame) :
  (add_span total_hours group == total_hours + Spec.span (rows group))%Q.
Proof.
  unfold add_span, Spec.span. rewrite group_min_earliest, group_max_latest.
  destruct (Spec.earliest (Spec.times "departure_td" (rows group))) as [d|],
    (Spec.latest (Spec.times "arrival_td" (rows group))) as [a|]; simpl;
    try destruct (d <? a); ring.
Qed.

Lemma span_nonneg (group : list (gmap string value)) : (0 <= Spec.span group)%Q.
Proof.
  unfold Spec.span.
  destruct (Spec.earliest (Spec.times "departure_td" group)) as [d|],
    (Spec.latest (Spec.times "arrival_td" group)) as [a|]; try apply Qle_refl.
  destruct (Z.ltb_spec d a); [|apply Qle_refl].
  unfold Qle. simpl. lia.
Qed.

Lemma span_positive_or_zero (group : list (gmap string value)) :
  Spec.span group = 0%Q \/
  exists departure arrival,
    Spec.earliest (Spec.times "departure_td" group) = Some departure /\
    Spec.latest (Spec.times "arrival_td" group) = Some arrival /\
    departure < arrival /\ Spec.span group = (arrival - departure) # 3600.
Proof.
  unfold Spec.span.
  destruct (Spec.earliest (Spec.times "departure_td" group)) as [d|],
    (Spec.latest (Spec.times "arrival_td" group)) as [a|]; auto.
  destruct (Z.ltb_spec d a); [|auto]. right. by exists d, a.
Qed.

Lemma Qsum_perm (l l' : list Q) : l ≡ₚ l' -> (Spec.Qsum l == Spec.Qsum l')%Q.
Proof.
  induction 1 as [|x l l' _ IH|x y l|l l' l'' _ IH1 _ IH2]; simpl.
  - reflexivity.
  - by rewrite IH.
  - ring.
  - by rewrite IH1.
Qed.

Lemma Qsum_nonneg (l : list Q) : Forall (fun q => (0 <= q)%Q) l -> (0 <= Spec.Qsum l)%Q.
Proof.
  induction 1 as [|q l Hq _ IH]; simpl; [apply Qle_refl|].
  replace 0%Q with (0 + 0)%Q by done. by apply Qplus_le_compat.
Qed.

Lemma insert_key_perm (k : value) (ks : list value) : Group.insert_key k ks ≡ₚ k :: ks.
Proof.
  induction ks as [|k' ks IH]; simpl; [done|].
  destruct (Group.key_leb k k'); [done|]. rewrite IH. apply Permutation_swap.
Qed.

Lemma sort_keys_perm (ks : list value) : Group.sort_keys ks ≡ₚ ks.
Proof.
  induction ks as [|k ks IH]; simpl; [done|].
  by rewrite insert_key_perm, IH.
Qed.

(** The keys of [groupby] are the identifiers of the column, sorted. *)
Lemma keys_identifiers (df : DataFrame) (name : string) :
  Group.keys (values (Pd.column df name)) ≡ₚ Spec.identifiers name df.
Proof.
  unfold Group.keys, Spec.identifiers. rewrite sort_keys_perm, values_column.
  erewrite list_filter_iff; [done|]. intros []; simpl; naive_solver.
Qed.

Lemma elem_of_identifiers (df : DataFrame) (name : string) (k : value) :
  k ∈ Spec.identifiers name df <->
  k ≠ NA /\ exists row, row ∈ rows df /\ Pd.cell name row = k.
Proof.
  unfold Spec.identifiers.
  rewrite elem_of_remove_dups, list_elem_of_filter, list_elem_of_fmap. naive_solver.
Qed.

(** The rows of one group of [groupby]. *)
Lemma rows_group (df : DataFrame) (name : string) (k : value) :
  rows (Pd.select df (Group.key_mask k (values (Pd.column df name)))) =
  Spec.group_rows name k df.
Proof.
  rewrite values_column. unfold Pd.select, Group.key_mask, Spec.group_rows. simpl.
  rewrite <- list_fmap_compose, filter_mask_fmap.
  apply list_filter_iff. intros row. simpl. by rewrite bool_decide_eq_true.
Qed.

Lemma foldl_add_span (groups : list (value * DataFrame)) (total_hours : Q) :
  (foldl (fun total_hours g => add_span total_hours g.2) total_hours groups ==
   total_hours + Spec.Qsum ((fun g => Spec.span (rows g.2)) <$> groups))%Q.
Proof.
  revert total_hours. induction groups as [|g groups IH]; intros total_hours.
  - unfold Spec.Qsum. simpl. ring.
  - simpl foldl. rewrite IH, add_span_span, fmap_cons.
    change (Spec.Qsum (?x :: ?l)) with (x + Spec.Qsum l)%Q. ring.
Qed.

(** The loop over the groups of a column adds the span of every identifier. *)
Lemma groupby_spans (merged : DataFrame) (name : string) (total_hours : Q) :
  (foldl (fun total_hours g => add_span total_hours g.2) total_hours
         (Group.groupby merged name) ==
   total_hours +
   Spec.Qsum ((fun k => Spec.span (Spec.group_rows name k merged))
                <$> Spec.identifiers name merged))%Q.
Proof.
  rewrite foldl_add_span. apply Qplus_inj_l.
  unfold Group.groupby. rewrite <- list_fmap_compose.
  erewrite (list_fmap_ext _ (fun k => Spec.span (Spec.group_rows name k merged))).
  - apply Qsum_perm. apply fmap_Permutation, keys_identifiers.
  - intros i k _. by rewrite <- rows_group.
Qed.

Lemma forallb_isna (l : list value) : forallb isna l = negb (existsb notna l).
Proof.
  induction l as [|v l IH]; [done|]. simpl. rewrite IH.
  unfold notna. by destruct (isna v).
Qed.

Lemma block_branch (merged : DataFrame) :
  negb (Pd.has_column "block_id" merged) ||
  forallb isna (values (Pd.column merged "block_id")) = negb (Spec.has_block merged).
Proof.
  unfold Spec.has_block. rewrite values_column, forallb_isna.
  by destruct (Pd.has_column "block_id" merged), (existsb notna _).
Qed.

(** A group without rows adds nothing, so the test of line 166 changes
    nothing. *)
Lemma empty_group_adds_nothing (merged : DataFrame) (mask : list bool) (total_hours : Q) :
  Pd.has_column "block_id" merged = true ->
  (if Pd.empty (Pd.select merged mask) then total_hours
   else add_span total_hours (Pd.select merged mask)) =
  add_span total_hours (Pd.select merged mask).
Proof.
  intros Hcol. unfold Pd.empty. simpl.
  destruct (Pd.filter_mask mask (rows merged)) as [|r l] eqn:E.
  - unfold add_span, Group.min, Group.max. rewrite !values_column. simpl.
    by rewrite E.
  - destruct (dtypes merged) eqn:Ed; [|done].
    unfold Pd.has_column, Pd.columns in Hcol. rewrite Ed in Hcol. done.
Qed.

Lemma block_loop_eq (merged : DataFrame) (name : string) (total_hours : Q) :
  Pd.has_column "block_id" merged = true ->
  foldl (fun total_hours g => if Pd.empty g.2 then total_hours else add_span total_hours g.2)
        total_hours (Group.groupby merged name) =
  foldl (fun total_hours g => add_span total_hours g.2)
        total_hours (Group.groupby merged name).
Proof.
  intros Hcol. unfold Group.groupby.
  generalize (Group.keys (values (Pd.column merged name))) as ks.
  intros ks. revert total_hours.
  induction ks as [|k ks IH]; intros total_hours; [done|].
  rewrite fmap_cons. simpl foldl. cbn [snd].
  rewrite empty_group_adds_nothing by done. apply IH.
Qed.

(** Lines 157 to 170 add the spans of the groups of the grouping key. *)
Lemma add_group_hours_aggregate (merged : DataFrame) (total_hours : Q) :
  (add_group_hours merged total_hours == total_hours + Spec.aggregate merged)%Q.
Proof.
  unfold add_group_hours, Spec.aggregate, Spec.grouping_key.
  rewrite block_branch.
  destruct (Spec.has_block merged) eqn:Hb; simpl negb; cbv iota.
  - rewrite block_loop_eq; [apply groupby_spans|].
    unfold Spec.has_block in Hb. by apply andb_true_iff in Hb as [? _].
  - apply groupby_spans.
Qed.

Lemma has_block_iff (merged : DataFrame) :
  Spec.has_block merged = true <->
  "block_id" ∈ Pd.columns merged /\
  exists row, row ∈ rows merged /\ Pd.cell "block_id" row ≠ NA.
Proof.
  unfold Spec.has_block, Pd.has_column.
  rewrite andb_true_iff, bool_decide_eq_true, existsb_exists.
  setoid_rewrite <- list_elem_of_In. setoid_rewrite list_elem_of_fmap.
  split; intros [Hc H]; (split; [done|]).
  - destruct H as (v & (row & -> & Hin) & Hv). exists row. split; [done|].
    by destruct (Pd.cell "block_id" row).
  - destruct H as (row & Hin & Hv). exists (Pd.cell "block_id" row).
    split; [by exists row|]. by destruct (Pd.cell "block_id" row).
Qed.

Lemma has_block_with_block_only (merged : DataFrame) :
  Spec.has_block (Spec.with_block_only merged) = Spec.has_block merged.
Proof.
  apply eq_true_iff_eq. rewrite !has_block_iff. unfold Spec.with_block_only. simpl.
  unfold Pd.columns. simpl. setoid_rewrite list_elem_of_filter. naive_solver.
Qed.

Lemma identifiers_with_block_only (merged : DataFrame) :
  Spec.identifiers "block_id" (Spec.with_block_only merged) =
  Spec.identifiers "block_id" merged.
Proof.
  unfold Spec.identifiers, Spec.with_block_only. simpl. f_equal.
  induction (rows merged) as [|row l IH]; [done|].
  rewrite fmap_cons, !filter_cons.
  destruct (decide (Pd.cell "block_id" row ≠ NA)) as [Hrow|Hrow].
  - by rewrite fmap_cons, filter_cons, decide_True, IH.
  - done.
Qed.

Lemma group_rows_with_block_only (merged : DataFrame) (k : value) :
  k ≠ NA ->
  Spec.group_rows "block_id" k (Spec.with_block_only merged) =
  Spec.group_rows "block_id" k merged.
Proof.
  intros Hk. unfold Spec.group_rows, Spec.with_block_only. simpl.
  apply list_filter_filter_l. congruence.
Qed.

(** The rows without a block change nothing once a row has a block. *)
Lemma aggregate_with_block_only (merged : DataFrame) :
  Spec.has_block merged = true ->
  Spec.aggregate (Spec.with_block_only merged) = Spec.aggregate merged.
Proof.
  intros Hb. unfold Spec.aggregate, Spec.grouping_key.
  rewrite has_block_with_block_only, Hb, identifiers_with_block_only.
  f_equal. apply list_fmap_ext. intros i k Hk.
  apply list_elem_of_lookup_2, elem_of_identifiers in Hk as [Hk _].
  by rewrite group_rows_with_block_only.
Qed.

(** ** The loop over the dates *)

#[global] Instance outcome_equiv_equivalence : Equivalence outcome_equiv.
Proof.
  split.
  - intros [x|e]; simpl; [reflexivity|done].
  - intros [x|e] [y|e']; simpl; try done; by symmetry.
  - intros [x|e] [y|e'] [z|e'']; simpl; try done; try congruence;
      intros ? ?; by etransitivity.
Qed.

Section Loop.

Variable strptime_Ymd : string -> option Z.

#[local] Abbreviation get_active_services_on_date :=
  (get_active_services_on_date strptime_Ymd).
#[local] Abbreviation active_services := (active_services strptime_Ymd).
#[local] Abbreviation calendar_after := (calendar_after strptime_Ymd).
#[local] Abbreviation date_step := (date_step strptime_Ymd).
#[local] Abbreviation date_loop := (date_loop strptime_Ymd).
#[local] Abbreviation date_total := (date_total strptime_Ymd).
#[local] Abbreviation range_total := (range_total strptime_Ymd).
#[local] Abbreviation date_hours := (date_hours strptime_Ymd).
#[local] Abbreviation range_hours := (range_hours strptime_Ymd).

Lemma add_date_hours_joined (active : gset value) (trips stop_times : DataFrame)
    (total_hours : Q) :
  add_date_hours active trips stop_times total_hours =
  merged ← joined active trips stop_times;
  Ret (from_option (fun merged => add_group_hours merged total_hours) total_hours merged).
Proof.
  unfold add_date_hours, joined.
  repeat first
    [ reflexivity
    | match goal with
      | |- context [if ?b then _ else _] => destruct b
      | |- context [mbind _ ?m] => destruct m; simpl
      end ].
Qed.

(** *** The exceptions table after a call *)

Lemma column_setitem_other (df : DataFrame) (n m : string) (s : Series) :
  m ≠ n -> Pd.column (Pd.setitem df n s) m = Pd.column df m.
Proof.
  intros Hne. unfold Pd.column, Pd.setitem. simpl.
  rewrite lookup_dtype_assign, decide_False by done. f_equal.
  apply list_eq. intros i. rewrite !list_lookup_fmap, list_lookup_imap.
  destruct (rows df !! i); simpl; [|done].
  by rewrite cell_insert, decide_False.
Qed.

Lemma setitem_twice (df : DataFrame) (n : string) (s : Series) :
  Pd.setitem (Pd.setitem df n s) n s = Pd.setitem df n s.
Proof.
  unfold Pd.setitem. simpl. rewrite assign_assign. f_equal.
  apply list_eq. intros i. rewrite !list_lookup_imap.
  destruct (rows df !! i); simpl; [|done].
  by rewrite insert_insert_eq.
Qed.

Lemma exceptions_guard_with_date_str (calendar_dates : DataFrame) :
  exceptions_guard calendar_dates = true ->
  exceptions_guard (with_date_str calendar_dates) = true.
Proof.
  unfold exceptions_guard, with_date_str. rewrite !andb_true_iff, !negb_true_iff.
  intros [Hempty Hcols]. split; [by apply empty_setitem|].
  rewrite forallb_forall in *. intros col Hcol.
  rewrite has_column_setitem, (Hcols col Hcol). done.
Qed.

Lemma with_date_str_twice (calendar_dates : DataFrame) :
  with_date_str (with_date_str calendar_dates) = with_date_str calendar_dates.
Proof.
  unfold with_date_str at 1.
  assert (Pd.column (with_date_str calendar_dates) "date" = Pd.column calendar_dates "date")
    as -> by (by apply column_setitem_other).
  apply setitem_twice.
Qed.

Lemma exceptions_after_twice (calendar_dates : DataFrame) :
  exceptions_after (exceptions_after calendar_dates) = exceptions_after calendar_dates.
Proof.
  unfold exceptions_after.
  destruct (exceptions_guard calendar_dates) eqn:Hg; [|by rewrite Hg].
  by rewrite exceptions_guard_with_date_str, with_date_str_twice.
Qed.

Lemma get_active_fst_snd (date : Z) (calendar calendar_dates : DataFrame) :
  get_active_services_on_date date calendar calendar_dates =
  (active_services date calendar calendar_dates,
   calendar_after date calendar, exceptions_after calendar_dates).
Proof. unfold active_services. by rewrite get_active_unfold. Qed.

(** The services of a date do not depend on whether an earlier call has
    written [date_str] already. *)
Lemma active_services_exceptions_after (date : Z) (calendar calendar_dates : DataFrame) :
  active_services date calendar (exceptions_after calendar_dates) =
  active_services date calendar calendar_dates.
Proof.
  unfold active_services. rewrite !get_active_unfold. cbn [fst].
  unfold exceptions_after.
  destruct (exceptions_guard calendar_dates) eqn:Hg; [|by rewrite Hg].
  by rewrite exceptions_guard_with_date_str, with_date_str_twice.
Qed.

(** *** The calendar after a call *)

Lemma normalize_settled (df : DataFrame) (n : string) :
  Pd.is_datetime64_any_dtype (Pd.column df n) = true ->
  normalize_date_column strptime_Ymd df n = df.
Proof. intros H. unfold normalize_date_column. by rewrite H. Qed.

Lemma calendar_after_settled (date : Z) (calendar : DataFrame) :
  settled calendar -> calendar_after date calendar = calendar.
Proof.
  intros [Hs He]. unfold calendar_after, normalized_calendar.
  destruct (calendar_guard date calendar); [|done].
  by rewrite (normalize_settled _ "start_date"), normalize_settled.
Qed.

Lemma dtype_setitem_same (df : DataFrame) (n : string) (s : Series) :
  dtype_of (Pd.column (Pd.setitem df n s) n) = dtype_of s.
Proof.
  unfold Pd.column, Pd.setitem. simpl.
  by rewrite lookup_dtype_assign, decide_True.
Qed.

Lemma has_column_true_dtype (df : DataFrame) (n : string) :
  Pd.has_column n df = true -> is_Some (Pd.lookup_dtype n (dtypes df)).
Proof.
  unfold Pd.has_column, Pd.columns. rewrite bool_decide_eq_true.
  induction (dtypes df) as [|[k d] ds IH]; simpl; [by intros ?%elem_of_nil|].
  destruct (String.eqb_spec k n); [by eauto|].
  rewrite elem_of_cons. intros [?|?]; [congruence|by apply IH].
Qed.

(** Lines 127 to 132 leave both date columns as timestamps. *)
Lemma preprocess_calendar_settled (calendar : DataFrame) :
  settled (preprocess_calendar strptime_Ymd calendar).
Proof.
  unfold preprocess_calendar.
  set (c1 := if negb (Pd.has_column "start_date" calendar) then _ else calendar).
  set (c2 := if negb (Pd.has_column "end_date" c1) then _ else c1).
  set (c3 := if Pd.has_column "start_date" c2 && _ then _ else c2).
  assert (H1 : Pd.has_column "start_date" c1 = true).
  { unfold c1. destruct (Pd.has_column "start_date" calendar) eqn:E; simpl; [done|].
    by rewrite has_column_setitem, bool_decide_true, orb_true_r. }
  assert (H2 : Pd.has_column "start_date" c2 = true /\ Pd.has_column "end_date" c2 = true).
  { unfold c2. destruct (Pd.has_column "end_date" c1) eqn:E; simpl; [by rewrite H1|].
    rewrite !has_column_setitem, H1. split; [done|].
    by rewrite bool_decide_true, orb_true_r. }
  destruct H2 as [H2s H2e].
  assert (H3 : Pd.is_datetime64_any_dtype (Pd.column c3 "start_date") = true /\
               Pd.has_column "end_date" c3 = true).
  { unfold c3. rewrite H2s. simpl.
    destruct (Pd.is_datetime64_any_dtype (Pd.column c2 "start_date")) eqn:E; simpl; [done|].
    split.
    - unfold Pd.is_datetime64_any_dtype. by rewrite dtype_setitem_same.
    - by rewrite has_column_setitem, H2e. }
  destruct H3 as [H3s H3e]. rewrite H3e. simpl.
  destruct (Pd.is_datetime64_any_dtype (Pd.column c3 "end_date")) eqn:E; simpl; [done|].
  split.
  - by rewrite column_setitem_other.
  - unfold Pd.is_datetime64_any_dtype. by rewrite dtype_setitem_same.
Qed.

End Loop.

Section Ranges.

Variable strptime_Ymd : string -> option Z.

#[local] Abbreviation active_services := (active_services strptime_Ymd).
#[local] Abbreviation date_step := (date_step strptime_Ymd).
#[local] Abbreviation date_loop := (date_loop strptime_Ymd).
#[local] Abbreviation date_total := (date_total strptime_Ymd).
#[local] Abbreviation range_total := (range_total strptime_Ymd).
#[local] Abbreviation date_hours := (date_hours strptime_Ymd).
#[local] Abbreviation range_hours := (range_hours strptime_Ymd).
#[local] Abbreviation calculate_service_hours := (calculate_service_hours strptime_Ymd).
#[local] Abbreviation prepare := (prepare strptime_Ymd).

(** What one turn of the loop does to the tables and to the total. *)
Lemma date_step_eq (t : tables) (total_hours : Q) (date : Z) :
  date_step t total_hours date =
  (mkTables (calendar_after strptime_Ymd date (calendar_txt t))
            (exceptions_after (calendar_dates_txt t)) (trips_txt t) (stop_times_txt t),
   date_total t total_hours date).
Proof. unfold date_step, date_total. by rewrite get_active_fst_snd. Qed.

Lemma date_total_later (t0 t : tables) (total_hours : Q) (date : Z) :
  later t0 t -> date_total t total_hours date = date_total t0 total_hours date.
Proof.
  intros (Hc & Ht & Hs & He). unfold date_total. rewrite Hc, Ht, Hs. f_equal.
  rewrite <- (active_services_exceptions_after _ _ _ (calendar_dates_txt t)).
  rewrite <- (active_services_exceptions_after _ _ _ (calendar_dates_txt t0)).
  by rewrite He.
Qed.

(** The loop returns what the dates give on the tables it started from. *)
Lemma date_loop_outcome (t0 : tables) (dates : list Z) :
  settled (calendar_txt t0) ->
  forall t total_hours, later t0 t ->
    (date_loop dates t total_hours).2 = range_total dates t0 total_hours /\
    later t0 (date_loop dates t total_hours).1.
Proof.
  intros Hset. induction dates as [|date dates IH]; intros t total_hours Hl; [done|].
  simpl. rewrite date_step_eq, (date_total_later t0 t) by done.
  assert (later t0 (mkTables (calendar_after strptime_Ymd date (calendar_txt t))
            (exceptions_after (calendar_dates_txt t)) (trips_txt t) (stop_times_txt t)))
    as Hl'.
  { destruct Hl as (Hc & Ht & Hs & He). repeat split; simpl; try done.
    - rewrite Hc. by apply calendar_after_settled.
    - by rewrite exceptions_after_twice. }
  destruct (date_total t0 total_hours date) as [total'|e]; simpl; [by apply IH|done].
Qed.

(** *** The hours of a date *)

Lemma date_total_hours (t : tables) (total_hours : Q) (date : Z) :
  outcome_equiv (date_total t total_hours date)
                (hours ← date_hours t date; Ret (total_hours + hours)%Q).
Proof.
  unfold date_total, date_hours. rewrite add_date_hours_joined.
  destruct (joined _ _ _) as [[merged|]|e]; simpl; try done.
  - apply add_group_hours_aggregate.
  - ring.
Qed.

Lemma aggregate_nonneg (merged : DataFrame) : (0 <= Spec.aggregate merged)%Q.
Proof.
  unfold Spec.aggregate. apply Qsum_nonneg, Forall_fmap, Forall_forall.
  intros k _. apply span_nonneg.
Qed.

Lemma date_hours_nonneg (t : tables) (date : Z) (hours : Q) :
  date_hours t date = Ret hours -> (0 <= hours)%Q.
Proof.
  unfold date_hours. destruct (joined _ _ _) as [[merged|]|e]; simpl; intros [= <-].
  - apply aggregate_nonneg.
  - apply Qle_refl.
Qed.

Lemma date_total_proper (t : tables) (x y : Q) (date : Z) :
  (x == y)%Q -> outcome_equiv (date_total t x date) (date_total t y date).
Proof.
  intros Hxy. rewrite (date_total_hours t x), (date_total_hours t y).
  destruct (date_hours t date); simpl; [by rewrite Hxy|done].
Qed.

Lemma range_total_proper (dates : list Z) (t : tables) (x y : Q) :
  (x == y)%Q -> outcome_equiv (range_total dates t x) (range_total dates t y).
Proof.
  revert x y. induction dates as [|date dates IH]; intros x y Hxy; simpl; [done|].
  pose proof (date_total_proper t x y date Hxy) as H.
  destruct (date_total t x date), (date_total t y date); simpl in *; try done.
  by apply IH.
Qed.

(** The running total after a list of dates is the total before plus the
    hours of the dates. *)
Lemma range_total_hours (dates : list Z) (t : tables) (total_hours : Q) :
  outcome_equiv (range_total dates t total_hours)
                (hours ← range_hours dates t; Ret (total_hours + hours)%Q).
Proof.
  revert total_hours. induction dates as [|date dates IH]; intros total_hours; simpl.
  - ring.
  - pose proof (date_total_hours t total_hours date) as H.
    destruct (date_total t total_hours date) as [x|e], (date_hours t date) as [h|e'];
      simpl in *; try done.
    rewrite (range_total_proper dates t x (total_hours + h)) by done.
    rewrite IH. destruct (range_hours dates t); simpl; [ring|done].
Qed.

Lemma range_hours_app (l1 l2 : list Z) (t : tables) :
  outcome_equiv (range_hours (l1 ++ l2) t)
                (x ← range_hours l1 t; y ← range_hours l2 t; Ret (x + y)%Q).
Proof.
  induction l1 as [|date l1 IH]; simpl.
  - destruct (range_hours l2 t); simpl; [ring|done].
  - destruct (date_hours t date) as [h|e]; simpl; [|done].
    destruct (range_hours (l1 ++ l2) t) as [r|e], (range_hours l1 t) as [x|e'];
      simpl in *; try done.
    + destruct (range_hours l2 t); simpl in *; [|done]. rewrite IH. ring.
    + by destruct (range_hours l2 t).
Qed.

Lemma range_hours_nonneg (dates : list Z) (t : tables) (hours : Q) :
  range_hours dates t = Ret hours -> (0 <= hours)%Q.
Proof.
  revert hours. induction dates as [|date dates IH]; intros hours; simpl.
  - intros [= <-]. apply Qle_refl.
  - destruct (date_hours t date) as [h|e] eqn:Eh; simpl; [|done].
    destruct (range_hours dates t) as [r|e]; simpl; [|done].
    intros [= <-]. replace 0%Q with (0 + 0)%Q by done.
    apply Qplus_le_compat; [by eapply date_hours_nonneg|by apply IH].
Qed.

End Ranges.

Section Compute.

Variable strptime_Ymd : string -> option Z.

#[local] Abbreviation date_loop := (date_loop strptime_Ymd).
#[local] Abbreviation range_total := (range_total strptime_Ymd).
#[local] Abbreviation range_hours := (range_hours strptime_Ymd).
#[local] Abbreviation calculate_service_hours := (calculate_service_hours strptime_Ymd).
#[local] Abbreviation prepare := (prepare strptime_Ymd).

Lemma later_refl (t : tables) : later t t.
Proof. done. Qed.

(** What a call returns, from the tables the loop starts with. *)
Lemma calculate_prepare (gtfs_data : gmap string DataFrame) (start_date end_date : Z) :
  (calculate_service_hours gtfs_data start_date end_date).2 =
  t ← prepare gtfs_data;
  match t with
  | None => Ret 0%Q
  | Some t => range_total (Date.date_range start_date end_date) t 0%Q
  end.
Proof.
  unfold calculate_service_hours, prepare.
  destruct (check_required _ _) as [g [|]]; [|done].
  destruct (preprocess_stop_times _) as [stop_times|e]; simpl; [|done].
  destruct (negb _ || negb _); simpl; [done|].
  apply date_loop_outcome; [|apply later_refl].
  apply preprocess_calendar_settled.
Qed.

Lemma date_range_split (a b c : Z) :
  a <= b -> b < c ->
  Date.date_range a c = Date.date_range a b ++ Date.date_range (b + 1) c.
Proof.
  intros Hab Hbc. unfold Date.date_range.
  replace (Z.to_nat (c - a + 1)) with (Z.to_nat (b - a + 1) + Z.to_nat (c - (b + 1) + 1))%nat
    by lia.
  rewrite seq_app, fmap_app. f_equal. simpl (0 + _)%nat.
  replace (seq (Z.to_nat (b - a + 1)) (Z.to_nat (c - (b + 1) + 1)))
    with (Nat.add (Z.to_nat (b - a + 1)) <$> seq 0 (Z.to_nat (c - (b + 1) + 1)))
    by (rewrite fmap_add_seq; f_equal; lia).
  rewrite <- list_fmap_compose.
  apply list_fmap_ext. intros i x _. simpl. lia.
Qed.

Lemma date_range_empty (start_date end_date : Z) :
  end_date < start_date -> Date.date_range start_date end_date = [].
Proof.
  intros H. unfold Date.date_range.
  by replace (Z.to_nat (end_date - start_date + 1)) with 0%nat by lia.
Qed.

(** *** The validation *)

Lemma missing_default_calendar_dates (gtfs_data : gmap string DataFrame) (name : string) :
  missing_or_empty (default_calendar_dates gtfs_data) name =
  missing_or_empty gtfs_data name.
Proof.
  unfold default_calendar_dates, missing_or_empty. case_bool_decide as Hcd; [|done].
  destruct (decide (name = "calendar_dates.txt")) as [->|Hne].
  - by rewrite lookup_insert_eq, Hcd.
  - by rewrite lookup_insert_ne.
Qed.

Lemma missing_insert_other (gtfs_data : gmap string DataFrame) (k name : string)
    (df : DataFrame) :
  name ≠ k -> missing_or_empty (<[k := df]> gtfs_data) name = missing_or_empty gtfs_data name.
Proof. intros Hne. unfold missing_or_empty. by rewrite lookup_insert_ne. Qed.

(** The call goes on exactly when trips and stop times are there, and
    the calendar or some exception is. *)
Lemma check_required_false (gtfs_data : gmap string DataFrame) :
  (check_required required_files gtfs_data).2 = false <->
  missing_or_empty gtfs_data "trips.txt" = true \/
  missing_or_empty gtfs_data "stop_times.txt" = true \/
  (missing_or_empty gtfs_data "calendar.txt" = true /\
   missing_or_empty gtfs_data "calendar_dates.txt" = true).
Proof.
  unfold required_files. simpl.
  destruct (missing_or_empty gtfs_data "calendar.txt") eqn:Hc;
    destruct (missing_or_empty gtfs_data "calendar_dates.txt") eqn:Hd; simpl;
    rewrite ?missing_insert_other by done;
    destruct (missing_or_empty gtfs_data "trips.txt") eqn:Ht; simpl;
    rewrite ?missing_insert_other by done;
    destruct (missing_or_empty gtfs_data "stop_times.txt") eqn:Hs; simpl;
    naive_solver.
Qed.

Lemma check_required_lookup (files : list string) (gtfs_data : gmap string DataFrame)
    (name : string) :
  name ≠ "calendar.txt" ->
  (check_required files gtfs_data).1 !! name = gtfs_data !! name.
Proof.
  intros Hne. revert gtfs_data.
  induction files as [|req_file files IH]; intros gtfs_data; simpl; [done|].
  destruct (missing_or_empty gtfs_data req_file); [|apply IH].
  destruct (String.eqb_spec req_file "calendar.txt") as [->|?]; simpl; [|done].
  destruct (negb _); [|done]. rewrite IH. by rewrite lookup_insert_ne.
Qed.

Lemma default_calendar_dates_lookup (gtfs_data : gmap string DataFrame) (name : string) :
  name ≠ "calendar_dates.txt" ->
  default_calendar_dates gtfs_data !! name = gtfs_data !! name.
Proof.
  intros Hne. unfold default_calendar_dates. case_bool_decide; [|done].
  by rewrite lookup_insert_ne.
Qed.

(** The frame that [trips] and [stop_times] are bound to is the one of
    the dict that was read. *)
Lemma bound_trips (gtfs_data : gmap string DataFrame) :
  trips_txt (bound_tables gtfs_data) = default Pd.DataFrame0 (gtfs_data !! "trips.txt").
Proof.
  unfold bound_tables, load_tables. cbn [trips_txt stop_times_txt].
  by rewrite check_required_lookup, default_calendar_dates_lookup.
Qed.

Lemma bound_stop_times (gtfs_data : gmap string DataFrame) :
  stop_times_txt (bound_tables gtfs_data) =
  default Pd.DataFrame0 (gtfs_data !! "stop_times.txt").
Proof.
  unfold bound_tables, load_tables. cbn [trips_txt stop_times_txt].
  by rewrite check_required_lookup, default_calendar_dates_lookup.
Qed.

Lemma preprocess_stop_times_returns (stop_times : DataFrame) :
  Pd.has_column "arrival_time" stop_times = true ->
  Pd.has_column "departure_time" stop_times = true ->
  exists filled, preprocess_stop_times stop_times = Ret filled.
Proof.
  intros Ha Hd. unfold preprocess_stop_times.
  rewrite !getitem_column by done. simpl.
  rewrite !getitem_column; [by eauto|..];
    by rewrite has_column_setitem, ?Ha, ?Hd.
Qed.

Lemma prepare_unfold (gtfs_data : gmap string DataFrame) :
  prepare gtfs_data =
  if (check_required required_files (default_calendar_dates gtfs_data)).2 then
    stop_times ← preprocess_stop_times (stop_times_txt (bound_tables gtfs_data));
    if negb (Pd.has_column "arrival_time" stop_times) ||
       negb (Pd.has_column "departure_time" stop_times)
    then Ret None
    else Ret (Some (mkTables
                      (preprocess_calendar strptime_Ymd
                         (calendar_txt (bound_tables gtfs_data)))
                      (calendar_dates_txt (bound_tables gtfs_data))
                      (trips_txt (bound_tables gtfs_data)) stop_times))
  else Ret None.
Proof.
  unfold prepare, bound_tables.
  by destruct (check_required _ _) as [g [|]].
Qed.

End Compute.

(** ** The date range *)

Section Totals.

Variable strptime_Ymd : string -> option Z.

#[local] Abbreviation range_total := (range_total strptime_Ymd).
#[local] Abbreviation range_hours := (range_hours strptime_Ymd).
#[local] Abbreviation calculate_service_hours := (calculate_service_hours strptime_Ymd).
#[local] Abbreviation prepare := (prepare strptime_Ymd).

(** The running total of a range is what it started with plus the hours
    of the range. *)
Lemma range_total_returns (dates : list Z) (t : tables) (total_hours result : Q) :
  range_total dates t total_hours = Ret result ->
  exists hours, range_hours dates t = Ret hours /\ (result == total_hours + hours)%Q.
Proof.
  intros Hr. pose proof (range_total_hours strptime_Ymd dates t total_hours) as H.
  rewrite Hr in H. destruct (range_hours dates t) as [hours|e]; simpl in H; [|done].
  by exists hours.
Qed.

Lemma range_total_split (l1 l2 : list Z) (t : tables) :
  outcome_equiv (range_total (l1 ++ l2) t 0%Q)
                (x ← range_total l1 t 0%Q; y ← range_total l2 t 0%Q; Ret (x + y)%Q).
Proof.
  pose proof (range_total_hours strptime_Ymd (l1 ++ l2) t 0%Q) as H.
  pose proof (range_total_hours strptime_Ymd l1 t 0%Q) as H1.
  pose proof (range_total_hours strptime_Ymd l2 t 0%Q) as H2.
  pose proof (range_hours_app strptime_Ymd l1 l2 t) as Happ.
  destruct (range_total (l1 ++ l2) t 0%Q) as [r|e],
           (range_hours (l1 ++ l2) t) as [h|e'],
           (range_total l1 t 0%Q) as [r1|e1],
           (range_hours l1 t) as [h1|e1'],
           (range_total l2 t 0%Q) as [r2|e2],
           (range_hours l2 t) as [h2|e2']; simpl in *; try done; try congruence.
  rewrite H, H1, H2, Happ. ring.
Qed.

Lemma prepare_returns (gtfs_data : gmap string DataFrame) :
  (forall stop_times,
      gtfs_data !! "stop_times.txt" = Some stop_times ->
      Pd.has_column "arrival_time" stop_times = true /\
      Pd.has_column "departure_time" stop_times = true) ->
  exists t, prepare gtfs_data = Ret t.
Proof.
  intros Hcols. rewrite prepare_unfold.
  destruct (check_required _ _).2 eqn:Hcheck; [|by eauto].
  assert (missing_or_empty gtfs_data "stop_times.txt" = false) as Hst.
  { destruct (missing_or_empty gtfs_data "stop_times.txt") eqn:Hm; [|done].
    assert ((check_required required_files (default_calendar_dates gtfs_data)).2 = false)
      as Hf; [|congruence].
    apply check_required_false. rewrite !missing_default_calendar_dates. auto. }
  rewrite bound_stop_times. unfold missing_or_empty in Hst.
  destruct (gtfs_data !! "stop_times.txt") as [stop_times|] eqn:Hl; [|done].
  destruct (Hcols stop_times eq_refl) as [Ha Hd]. simpl.
  destruct (preprocess_stop_times_returns stop_times Ha Hd) as [filled ->]. simpl.
  destruct (_ || _); eauto.
Qed.

End Totals.

(** ** What the calls write into the tables *)

Lemma same_except_refl (names : list string) (df : DataFrame) : same_except names df df.
Proof. by split. Qed.

Lemma same_except_trans (names : list string) (a b c : DataFrame) :
  same_except names a b -> same_except names b c -> same_except names a c.
Proof.
  intros [Hl1 H1] [Hl2 H2]. split; [congruence|].
  intros n Hn. destruct (H1 n Hn), (H2 n Hn). split; congruence.
Qed.

(** An assignment to a column leaves the other columns and the number of
    rows as they were. *)
Lemma same_except_setitem (names : list string) (df : DataFrame) (name : string)
    (s : Series) :
  name ∈ names -> same_except names df (Pd.setitem df name s).
Proof.
  intros Hin. split.
  - unfold Pd.setitem. simpl. by rewrite length_imap.
  - intros n Hn. assert (n ≠ name) as Hne by congruence. split.
    + rewrite has_column_setitem, bool_decide_eq_false_2 by done.
      apply orb_false_r.
    + by apply column_setitem_other.
Qed.

Section Frame.

Variable strptime_Ymd : string -> option Z.

#[local] Abbreviation date_loop := (date_loop strptime_Ymd).
#[local] Abbreviation calculate_service_hours := (calculate_service_hours strptime_Ymd).

Lemma same_except_normalize (names : list string) (df : DataFrame) (name : string) :
  name ∈ names -> same_except names df (normalize_date_column strptime_Ymd df name).
Proof.
  intros Hin. unfold normalize_date_column.
  destruct (negb _); [by apply same_except_setitem|apply same_except_refl].
Qed.

Lemma same_except_calendar_after (date : Z) (calendar : DataFrame) :
  same_except ["start_date"; "end_date"] calendar
              (calendar_after strptime_Ymd date calendar).
Proof.
  unfold calendar_after, normalized_calendar.
  destruct (calendar_guard _ _); [|apply same_except_refl].
  eapply same_except_trans; apply same_except_normalize; set_solver.
Qed.

Lemma same_except_exceptions_after (calendar_dates : DataFrame) :
  same_except ["date_str"] calendar_dates (exceptions_after calendar_dates).
Proof.
  unfold exceptions_after, with_date_str.
  destruct (exceptions_guard _); [|apply same_except_refl].
  apply same_except_setitem. set_solver.
Qed.

Lemma same_except_preprocess_calendar (calendar : DataFrame) :
  same_except ["start_date"; "end_date"] calendar
              (preprocess_calendar strptime_Ymd calendar).
Proof.
  unfold preprocess_calendar.
  repeat (eapply same_except_trans;
          [|match goal with
            | |- same_except _ _ (if ?b then _ else _) =>
                destruct b; [apply same_except_setitem; set_solver|apply same_except_refl]
            end]).
  apply same_except_refl.
Qed.

Lemma same_except_preprocess_stop_times (stop_times filled : DataFrame) :
  preprocess_stop_times stop_times = Ret filled ->
  same_except ["arrival_time"; "departure_time"] stop_times filled.
Proof.
  unfold preprocess_stop_times, Pd.getitem.
  destruct (Pd.has_column "arrival_time" stop_times); simpl; [|done].
  destruct (Pd.has_column "departure_time" stop_times); simpl; [|done].
  destruct (Pd.has_column "departure_time" _); simpl; [|done].
  destruct (Pd.has_column "arrival_time" _); simpl; [|done].
  intros [= <-].
  eapply same_except_trans; apply same_except_setitem; set_solver.
Qed.

(** The loop over the dates writes into the calendar and the exceptions,
    and into nothing else. *)
Lemma date_loop_frame (dates : list Z) (t : tables) (total_hours : Q) :
  trips_txt (date_loop dates t total_hours).1 = trips_txt t /\
  stop_times_txt (date_loop dates t total_hours).1 = stop_times_txt t /\
  same_except ["start_date"; "end_date"]
    (calendar_txt t) (calendar_txt (date_loop dates t total_hours).1) /\
  same_except ["date_str"]
    (calendar_dates_txt t) (calendar_dates_txt (date_loop dates t total_hours).1).
Proof.
  revert t total_hours. induction dates as [|date dates IH]; intros t total_hours.
  - simpl. eauto using same_except_refl.
  - simpl. rewrite date_step_eq.
    destruct (date_total strptime_Ymd t total_hours date) as [total_hours'|e].
    + match goal with
      | |- context [date_loop dates ?t' total_hours'] =>
          destruct (IH t' total_hours') as (Ht & Hs & Hc & Hd)
      end.
      simpl in Ht, Hs, Hc, Hd. rewrite Ht, Hs. do 2 (split; [done|]). split.
      * eapply same_except_trans; [apply same_except_calendar_after|exact Hc].
      * eapply same_except_trans; [apply same_except_exceptions_after|exact Hd].
    + simpl. do 2 (split; [done|]). split.
      * apply same_except_calendar_after.
      * apply same_except_exceptions_after.
Qed.

(** What a call leaves of the frames that [calendar], [calendar_dates],
    [trips] and [stop_times] were bound to. *)
Lemma calculate_frame (gtfs_data : gmap string DataFrame) (start_date end_date : Z) :
  trips_txt (calculate_service_hours gtfs_data start_date end_date).1 =
    trips_txt (bound_tables gtfs_data) /\
  same_except ["start_date"; "end_date"]
    (calendar_txt (bound_tables gtfs_data))
    (calendar_txt (calculate_service_hours gtfs_data start_date end_date).1) /\
  same_except ["date_str"]
    (calendar_dates_txt (bound_tables gtfs_data))
    (calendar_dates_txt (calculate_service_hours gtfs_data start_date end_date).1) /\
  same_except ["arrival_time"; "departure_time"]
    (stop_times_txt (bound_tables gtfs_data))
    (stop_times_txt (calculate_service_hours gtfs_data start_date end_date).1).
Proof.
  unfold calculate_service_hours, bound_tables.
  destruct (check_required required_files (default_calendar_dates gtfs_data))
    as [data [|]]; cbn [fst snd]; [|by eauto 10 using same_except_refl].
  destruct (preprocess_stop_times (stop_times_txt (load_tables data)))
    as [filled|e] eqn:Hfill.
  - apply same_except_preprocess_stop_times in Hfill.
    destruct (_ || _).
    + cbn [fst trips_txt calendar_txt calendar_dates_txt stop_times_txt].
      eauto 10 using same_except_refl, same_except_preprocess_calendar.
    + match goal with
      | |- context [date_loop ?dates ?t ?total] =>
          destruct (date_loop_frame dates t total) as (Ht & Hs & Hc & Hd)
      end.
      cbn [trips_txt calendar_txt calendar_dates_txt stop_times_txt] in Ht, Hs, Hc, Hd.
      rewrite Ht, Hs. split; [done|]. split; [|split; [done|done]].
      eapply same_except_trans; [apply same_except_preprocess_calendar|exact Hc].
  - cbn [fst trips_txt calendar_txt calendar_dates_txt stop_times_txt].
    eauto 10 using same_except_refl, same_except_preprocess_calendar.
Qed.

End Frame.

(** * The claims of the specification *)

(** ** Validation of the tables *)

(** C1, as the code has it: when the trips or the stop times are absent
    or empty, or the calendar is while there is no exception either, the
    call returns the number 0.0; it raises nothing and does not return
    [None]. *)
Theorem missing_table_returns_zero (strptime_Ymd : string -> option Z)
    (gtfs_data : gmap string DataFrame) (start_date end_date : Z) :
  Spec.missing_required_table gtfs_data ->
  calculate_service_hours_from_url strptime_Ymd (Some gtfs_data) start_date end_date =
  Ret (PyFloat 0).
Proof.
  intros Hmissing. unfold calculate_service_hours_from_url.
  rewrite calculate_prepare, prepare_unfold.
  assert ((check_required required_files (default_calendar_dates gtfs_data)).2 = false)
    as ->; [|done].
  apply check_required_false. by rewrite !missing_default_calendar_dates.
Qed.

Lemma missing_table_returns_zero_witness :
  Spec.missing_required_table Example.feed_without_calendar /\
  calculate_service_hours_from_url Example.strptime_Ymd
    (Some Example.feed_without_calendar) 19724 19724 = Ret (PyFloat 0).
Proof.
  assert (Spec.missing_required_table Example.feed_without_calendar) as H.
  { right. right. split; reflexivity. }
  split; [exact H|]. exact (missing_table_returns_zero _ _ _ _ H).
Defined.

(** C1, as the specification has it, fails on an archive without
    trips.txt: the call hands back a number. *)
Lemma missing_trips_is_no_failure :
  Spec.missing_required_table Example.feed_without_trips /\
  calculate_service_hours_from_url Example.strptime_Ymd
    (Some Example.feed_without_trips) 19724 19724 = Ret (PyFloat 0) /\
  ~ Spec.aborts (calculate_service_hours_from_url Example.strptime_Ymd
                   (Some Example.feed_without_trips) 19724 19724).
Proof.
  split; [left; reflexivity|]. split; [by vm_compute|].
  vm_compute. tauto.
Qed.

(** ** The tables after a call *)

(** C2, as the code has it: a call writes into the frames it is given.
    [get_active_services_on_date] assigns to [start_date] and [end_date]
    of the calendar and to [date_str] of the exceptions; the
    preprocessing assigns to [start_date] and [end_date] of the calendar
    and to [arrival_time] and [departure_time] of the stop times. The
    other columns and the number of rows stay, and so does the whole of
    the trips. *)
Theorem writes_stay_in_normalized_columns (strptime_Ymd : string -> option Z) :
  (forall (date : Z) (calendar calendar_dates : DataFrame),
      same_except ["start_date"; "end_date"] calendar
        (get_active_services_on_date strptime_Ymd date calendar calendar_dates).1.2 /\
      same_except ["date_str"] calendar_dates
        (get_active_services_on_date strptime_Ymd date calendar calendar_dates).2) /\
  (forall (gtfs_data : gmap string DataFrame) (start_date end_date : Z),
      let before := bound_tables gtfs_data in
      let after := (calculate_service_hours strptime_Ymd gtfs_data start_date end_date).1 in
      trips_txt after = trips_txt before /\
      same_except ["start_date"; "end_date"] (calendar_txt before) (calendar_txt after) /\
      same_except ["date_str"] (calendar_dates_txt before) (calendar_dates_txt after) /\
      same_except ["arrival_time"; "departure_time"]
        (stop_times_txt before) (stop_times_txt after)).
Proof.
  split.
  - intros date calendar calendar_dates. rewrite get_active_fst_snd. simpl. split.
    + apply same_except_calendar_after.
    + apply same_except_exceptions_after.
  - intros gtfs_data start_date end_date. apply calculate_frame.
Qed.

Lemma writes_stay_in_normalized_columns_witness :
  Pd.column (get_active_services_on_date Example.strptime_Ymd 19724
               Example.calendar Example.calendar_dates).1.2 "service_id" =
  Pd.column Example.calendar "service_id".
Proof.
  apply (proj1 (writes_stay_in_normalized_columns Example.strptime_Ymd)).
  apply (bool_decide_unpack _). by vm_compute.
Defined.

(** C2, as the specification has it, fails: after a call the calendar
    holds timestamps where it held text, the exceptions have the column
    [date_str], and the arrival that was missing is filled. *)
Lemma caller_tables_are_written :
  let before := bound_tables Example.feed_with_gap in
  let after :=
    (calculate_service_hours Example.strptime_Ymd Example.feed_with_gap 19724 19724).1 in
  before = mkTables Example.calendar Example.calendar_dates Example.trips
                    Example.stop_times_with_gap /\
  Pd.column (calendar_txt before) "start_date" = mkSeries object [Str "20240101"] /\
  Pd.column (calendar_txt after) "start_date" = mkSeries datetime64 [Ts 19723] /\
  Pd.has_column "date_str" (calendar_dates_txt before) = false /\
  Pd.column (calendar_dates_txt after) "date_str" = mkSeries object [Str "20240103"] /\
  Pd.column (stop_times_txt before) "arrival_time" =
    mkSeries object [NA; Str "08:30:00"] /\
  Pd.column (stop_times_txt after) "arrival_time" =
    mkSeries object [Str "08:00:00"; Str "08:30:00"].
Proof. split_and!; by vm_compute. Qed.

(** ** The services of a date *)

(** C3: the services that [get_active_services_on_date] returns for a
    date are those of the base set (weekday flag set, start_date <= date
    <= end_date, both bounds included) or with an ADD exception dated
    that day, less those with a REMOVE exception dated that day; a
    service with a REMOVE exception on the date is never returned. *)
Theorem resolve_is_base_added_less_removed (strptime_Ymd : string -> option Z)
    (date : Z) (calendar calendar_dates : DataFrame) :
  let active :=
    (get_active_services_on_date strptime_Ymd date calendar calendar_dates).1.1 in
  (forall service_id,
      service_id ∈ active <->
      (Spec.base strptime_Ymd calendar date service_id \/
       Spec.added calendar_dates date service_id) /\
      ~ Spec.removed calendar_dates date service_id) /\
  (forall service_id,
      Spec.removed calendar_dates date service_id -> service_id ∉ active).
Proof.
  simpl. split.
  - intros service_id. apply active_services_resolve.
  - intros service_id Hremoved Hin.
    apply active_services_resolve in Hin as [_ Hnot]. by apply Hnot.
Qed.

(** The example of the specification: S1 is active on Tuesday 2024-01-02,
    and not on 2024-01-03, the day of its REMOVE exception. *)
Lemma resolve_example :
  (get_active_services_on_date Example.strptime_Ymd 19724
     Example.calendar Example.calendar_dates).1.1 = {[ Str "S1" ]} /\
  (get_active_services_on_date Example.strptime_Ymd 19725
     Example.calendar Example.calendar_dates).1.1 = ∅.
Proof. split; by vm_compute. Qed.

(** ** The hours of a date *)

(** C4: when no joined row has a block identifier, the hours added are
    the spans of the trips, one group for every trip identifier;
    otherwise they are the spans of the blocks, one group for every
    block identifier, and the rows without a block identifier add
    nothing: the hours are those of the joined rows without them. *)
Theorem groups_by_trip_or_block (merged : DataFrame) (total_hours : Q) :
  (Spec.has_block merged = false ->
   (add_group_hours merged total_hours ==
    total_hours +
    Spec.Qsum ((fun trip_id => Spec.span (Spec.group_rows "trip_id" trip_id merged))
                 <$> Spec.identifiers "trip_id" merged))%Q) /\
  (Spec.has_block merged = true ->
   (add_group_hours merged total_hours ==
    total_hours +
    Spec.Qsum ((fun block_id => Spec.span (Spec.group_rows "block_id" block_id merged))
                 <$> Spec.identifiers "block_id" merged))%Q /\
   (add_group_hours merged total_hours ==
    add_group_hours (Spec.with_block_only merged) total_hours)%Q).
Proof.
  split; intros Hb.
  - rewrite add_group_hours_aggregate. unfold Spec.aggregate, Spec.grouping_key.
    rewrite Hb. reflexivity.
  - split.
    + rewrite add_group_hours_aggregate. unfold Spec.aggregate, Spec.grouping_key.
      rewrite Hb. reflexivity.
    + rewrite !add_group_hours_aggregate. by rewrite aggregate_with_block_only.
Qed.

Lemma groups_by_trip_or_block_witness :
  (add_group_hours Example.merged_without_blocks 0 ==
   0 + Spec.Qsum ((fun trip_id =>
                     Spec.span (Spec.group_rows "trip_id" trip_id
                                  Example.merged_without_blocks))
                    <$> Spec.identifiers "trip_id" Example.merged_without_blocks))%Q /\
  (add_group_hours Example.merged_with_blocks 0 ==
   add_group_hours (Spec.with_block_only Example.merged_with_blocks) 0)%Q.
Proof.
  split.
  - apply (proj1 (groups_by_trip_or_block Example.merged_without_blocks 0)).
    reflexivity.
  - apply (proj2 (groups_by_trip_or_block Example.merged_with_blocks 0)).
    reflexivity.
Defined.

(** The three trips of the example: three hours for the trips alone, one
    hour when two of them are in a block and the third in none. *)
Lemma groups_example :
  (add_group_hours Example.merged_without_blocks 0 == 3)%Q /\
  (add_group_hours Example.merged_with_blocks 0 == 1)%Q.
Proof. split; by vm_compute. Qed.

(** ** Times past midnight *)

(** C5: the parser keeps an hour field of 24 or more as it is, so that
    23:50:00 is 85800 seconds and 24:10:00 is 87000 seconds; a group
    whose earliest departure is the first and whose latest arrival is the
    second adds a third of an hour to the total. *)
Theorem overnight_span_is_twenty_minutes :
  parse_gtfs_time (Str "23:50:00") = Ret (Td 85800) /\
  parse_gtfs_time (Str "24:10:00") = Ret (Td 87000) /\
  (forall (text a b c : string) (h m s : Z),
      Py.split ":" text = [a; b; c] ->
      Py.int a = Some h -> Py.int b = Some m -> Py.int c = Some s ->
      24 <= h -> in_timedelta_range (h * 3600 + m * 60 + s) ->
      parse_gtfs_time (Str text) = Ret (Td (h * 3600 + m * 60 + s))) /\
  (forall (total_hours : Q) (group : DataFrame),
      Ret (Group.min (Pd.column group "departure_td")) =
        parse_gtfs_time (Str "23:50:00") ->
      Ret (Group.max (Pd.column group "arrival_td")) =
        parse_gtfs_time (Str "24:10:00") ->
      (add_span total_hours group == total_hours + (1 # 3))%Q /\
      (total_hours < add_span total_hours group)%Q).
Proof.
  split; [reflexivity|]. split; [reflexivity|]. split.
  - intros text a b c h m s Hsplit Ha Hb Hc _ Hrange.
    by apply (parse_three_integers text a b c).
  - intros total_hours group Hmin Hmax.
    change (parse_gtfs_time (Str "23:50:00")) with (@Ret value (Td 85800)) in Hmin.
    change (parse_gtfs_time (Str "24:10:00")) with (@Ret value (Td 87000)) in Hmax.
    injection Hmin as Hmin. injection Hmax as Hmax.
    unfold add_span. rewrite Hmin, Hmax. simpl.
    split; [unfold Qeq; simpl; lia|unfold Qlt; simpl].
    destruct total_hours as [n d]. simpl. nia.
Qed.

Lemma overnight_span_is_twenty_minutes_witness :
  (add_span 0 Example.overnight_group == 0 + (1 # 3))%Q /\
  (0 < add_span 0 Example.overnight_group)%Q.
Proof.
  destruct overnight_span_is_twenty_minutes as (_ & _ & _ & H).
  apply H; reflexivity.
Defined.

(** The trip over midnight, through the whole engine. *)
Lemma overnight_example :
  outcome_equiv
    (calculate_service_hours Example.strptime_Ymd Example.overnight_feed 19724 19724).2
    (Ret (1 # 3)).
Proof. by vm_compute. Qed.

(** ** What the parser does with a text that is no time *)

(** Rows whose arrival or departure is missing after the parsing are in
    no group. *)
Lemma dropna2_rows (df : DataFrame) (a b : string) (row : gmap string value) :
  row ∈ rows (dropna2 df a b) <->
  row ∈ rows df /\ Pd.cell a row ≠ NA /\ Pd.cell b row ≠ NA.
Proof.
  unfold dropna2, Pd.select. cbn [rows]. rewrite !values_column, <- !list_fmap_compose.
  rewrite mask_and_fmap, filter_mask_fmap, list_elem_of_filter. simpl.
  rewrite andb_true_iff. unfold notna, isna.
  destruct (Pd.cell a row), (Pd.cell b row); simpl; naive_solver.
Qed.

(** C6 fails on the text 24000000000:00:00: its three fields are
    integers, [timedelta] refuses the hours with an [OverflowError], and
    [except ValueError] does not catch it. The exception leaves the
    parser and then the whole computation. *)
Theorem parser_lets_overflow_through :
  parse_gtfs_time (Str "24000000000:00:00") = Raise OverflowError /\
  (calculate_service_hours Example.strptime_Ymd Example.overflow_feed 19724 19724).2 =
    Raise OverflowError.
Proof. split; by vm_compute. Qed.

(** ** Fields that are integers *)

(** C10, as the code has it: a text of three fields that [int] reads
    gives the duration of their raw values, zero-padded or not, negative
    or not, as long as [timedelta] can hold it. *)
Theorem parse_accepts_three_integers (text : string) (h m s : Z) :
  Py.int <$> Py.split ":" text = [Some h; Some m; Some s] ->
  in_timedelta_range (h * 3600 + m * 60 + s) ->
  parse_gtfs_time (Str text) = Ret (Td (h * 3600 + m * 60 + s)).
Proof.
  intros Hfields [Hlo Hhi]. unfold parse_gtfs_time. rewrite Hfields.
  unfold Py.timedelta. simpl.
  destruct (Z.leb_spec (-999999999) ((h * 3600 + m * 60 + s) / 86400)); [|lia].
  destruct (Z.leb_spec ((h * 3600 + m * 60 + s) / 86400) 999999999); [|lia].
  reflexivity.
Qed.

Lemma parse_accepts_three_integers_witness :
  parse_gtfs_time (Str "8:5:0") = Ret (Td 29100) /\
  parse_gtfs_time (Str "-1:00:00") = Ret (Td (-3600)).
Proof.
  split.
  - apply (parse_accepts_three_integers "8:5:0" 8 5 0); [reflexivity|].
    split; by vm_compute.
  - apply (parse_accepts_three_integers "-1:00:00" (-1) 0 0); [reflexivity|].
    split; by vm_compute.
Defined.

(** C10, as the claim has it, fails on three integers that are more
    hours than a [timedelta] holds: the parser raises. *)
Lemma parse_three_integers_overflow :
  Py.int <$> Py.split ":" "1000000000000:0:0" = [Some 1000000000000; Some 0; Some 0] /\
  parse_gtfs_time (Str "1000000000000:0:0") = Raise OverflowError.
Proof. split; by vm_compute. Qed.

(** ** The hours of a range of dates *)

(** With the hours added as exact rationals, the hours of a..c are the
    hours of a..b plus the hours of b+1..c for dates a <= b < c; an
    exception that stops the one stops the other. In doubles the two
    sides differ by the rounding of the additions (see
    [range_continues_running_total]). *)
Lemma exact_hours_are_additive (strptime_Ymd : string -> option Z)
    (gtfs_data : gmap string DataFrame) (a b c : Z) :
  a <= b -> b < c ->
  outcome_equiv
    (calculate_service_hours strptime_Ymd gtfs_data a c).2
    (x ← (calculate_service_hours strptime_Ymd gtfs_data a b).2;
     y ← (calculate_service_hours strptime_Ymd gtfs_data (b + 1) c).2;
     Ret (x + y)%Q).
Proof.
  intros Hab Hbc. rewrite !calculate_prepare.
  destruct (prepare strptime_Ymd gtfs_data) as [[t|]|e]; simpl; [|reflexivity|done].
  rewrite (date_range_split a b c Hab Hbc). apply range_total_split.
Qed.

(** The week of the example, Monday 2024-01-01 to Sunday 2024-01-07, with
    the REMOVE exception on Wednesday: four hours, two of them on Monday
    and Tuesday. *)
Lemma week_example :
  outcome_equiv
    (calculate_service_hours Example.strptime_Ymd Example.feed_with_removal 19723 19729).2
    (Ret 4%Q) /\
  outcome_equiv
    (calculate_service_hours Example.strptime_Ymd Example.feed_with_removal 19723 19724).2
    (Ret 2%Q) /\
  outcome_equiv
    (calculate_service_hours Example.strptime_Ymd Example.feed 19724 19724).2 (Ret 1%Q) /\
  outcome_equiv
    (calculate_service_hours Example.strptime_Ymd Example.feed_with_removal 19725 19725).2
    (Ret 0%Q).
Proof. split_and!; by vm_compute. Qed.

(** C8: the span of a group, latest arrival less earliest departure, is
    added to the running total when it is positive, and the total stays
    as it is when the span is zero or negative or when the group has no
    departure or no arrival; the total that a call returns is not
    negative. *)
Theorem only_positive_spans_are_added (strptime_Ymd : string -> option Z) :
  (forall (total_hours : Q) (group : DataFrame) (start_td end_td : Z),
      Group.min (Pd.column group "departure_td") = Td start_td ->
      Group.max (Pd.column group "arrival_td") = Td end_td ->
      add_span total_hours group =
      if 0 <? end_td - start_td
      then (total_hours + ((end_td - start_td) # 3600))%Q
      else total_hours) /\
  (forall (total_hours : Q) (group : DataFrame),
      Group.min (Pd.column group "departure_td") = NA \/
      Group.max (Pd.column group "arrival_td") = NA ->
      add_span total_hours group = total_hours) /\
  (forall (gtfs_data : gmap string DataFrame) (start_date end_date : Z) (total_hours : Q),
      (calculate_service_hours strptime_Ymd gtfs_data start_date end_date).2 =
        Ret total_hours ->
      (0 <= total_hours)%Q).
Proof.
  split; [|split].
  - intros total_hours group start_td end_td Hmin Hmax.
    unfold add_span. rewrite Hmin, Hmax.
    destruct (Z.ltb_spec start_td end_td), (Z.ltb_spec 0 (end_td - start_td));
      try done; lia.
  - intros total_hours group [Hmin|Hmax]; unfold add_span.
    + by rewrite Hmin.
    + rewrite Hmax. by destruct (Group.min _).
  - intros gtfs_data start_date end_date total_hours. rewrite calculate_prepare.
    destruct (prepare strptime_Ymd gtfs_data) as [[t|]|e]; simpl; [|by intros [= <-]|done].
    intros Hr. apply range_total_returns in Hr as (hours & Hh & ->).
    apply range_hours_nonneg in Hh. rewrite Qplus_0_l. exact Hh.
Qed.

Lemma only_positive_spans_are_added_witness :
  add_span 0 Example.overnight_group = (0 + (1200 # 3600))%Q /\
  (0 <= 3600 # 3600)%Q.
Proof.
  split.
  - apply (proj1 (only_positive_spans_are_added Example.strptime_Ymd)
             0%Q Example.overnight_group 85800 87000); reflexivity.
  - apply (proj2 (proj2 (only_positive_spans_are_added Example.strptime_Ymd))
             Example.feed 19724 19724). reflexivity.
Defined.

(** X22: when the end date is before the start date and the stop times that
    were read have both time columns, the call returns 0.0. *)
Theorem empty_range_returns_zero (strptime_Ymd : string -> option Z)
    (gtfs_data : gmap string DataFrame) (start_date end_date : Z) :
  end_date < start_date ->
  (forall stop_times,
      gtfs_data !! "stop_times.txt" = Some stop_times ->
      Pd.has_column "arrival_time" stop_times = true /\
      Pd.has_column "departure_time" stop_times = true) ->
  (calculate_service_hours strptime_Ymd gtfs_data start_date end_date).2 = Ret 0%Q /\
  calculate_service_hours_from_url strptime_Ymd (Some gtfs_data) start_date end_date =
    Ret (PyFloat 0).
Proof.
  intros Hrange Hcols.
  assert ((calculate_service_hours strptime_Ymd gtfs_data start_date end_date).2 = Ret 0%Q)
    as Hzero.
  { rewrite calculate_prepare.
    destruct (prepare_returns strptime_Ymd gtfs_data Hcols) as [[t|] ->]; simpl; [|done].
    by rewrite date_range_empty. }
  split; [exact Hzero|]. unfold calculate_service_hours_from_url. by rewrite Hzero.
Qed.

Lemma empty_range_returns_zero_witness :
  (calculate_service_hours Example.strptime_Ymd Example.feed 19729 19723).2 = Ret 0%Q /\
  calculate_service_hours_from_url Example.strptime_Ymd (Some Example.feed) 19729 19723 =
    Ret (PyFloat 0).
Proof.
  apply empty_range_returns_zero; [lia|].
  intros stop_times Hst. vm_compute in Hst. injection Hst as <-. split; reflexivity.
Defined.

(** C9 fails on stop times without the column of the arrivals: the end
    date is before the start date, and line 133 raises a [KeyError] before
    the range is built; the test of line 135, which would return 0.0, is
    never reached. *)
Lemma empty_range_without_arrivals :
  (calculate_service_hours Example.strptime_Ymd
     (<["stop_times.txt" := Example.stop_times_without_arrivals]> Example.feed)
     19729 19723).2 = Raise (KeyError "arrival_time").
Proof. by vm_compute. Qed.

(** ** The hours of a range in doubles *)

Section Doubles.

Variable strptime_Ymd : string -> option Z.







End Doubles.



(** * Further properties of the code *)

(** ** The results of the time parser *)

(** X1: a text parses to the missing result exactly when it has not three
    fields between its colons, or a field that [int] does not read. *)
Theorem parse_missing_iff (text : string) :
  parse_gtfs_time (Str text) = Ret NA <->
  length (Py.split ":" text) <> 3%nat \/
  exists field, field ∈ Py.split ":" text /\ Py.int field = None.
Proof.
  split.
  - unfold parse_gtfs_time.
    destruct (Py.split ":" text) as [|a [|b [|c [|e l]]]]; simpl; auto.
    destruct (Py.int a) as [h|] eqn:Ea; [|right; exists a; set_solver].
    destruct (Py.int b) as [m|] eqn:Eb; [|right; exists b; set_solver].
    destruct (Py.int c) as [s|] eqn:Ec; [|right; exists c; set_solver].
    unfold Py.timedelta. by destruct (_ && _).
  - intros [Hlen|(field & Hin & Hint)].
    + by apply parse_wrong_field_count.
    + by apply (parse_non_integer text field).
Qed.

(** X2: the parser raises on a text exactly when its three fields are
    integers that are more than a [timedelta] holds, and what it raises
    is an [OverflowError]. *)
Theorem parse_raises_iff (text : string) (e : exn) :
  parse_gtfs_time (Str text) = Raise e <->
  e = OverflowError /\
  exists h m s,
    Py.int <$> Py.split ":" text = [Some h; Some m; Some s] /\
    ~ in_timedelta_range (h * 3600 + m * 60 + s).
Proof.
  unfold parse_gtfs_time, in_timedelta_range. split.
  - destruct (Py.int <$> Py.split ":" text) as [|[h|] [|[m|] [|[s|] [|x l]]]];
      simpl; try done.
    unfold Py.timedelta.
    destruct (Z.leb_spec (-999999999) ((h * 3600 + m * 60 + s) / 86400));
      destruct (Z.leb_spec ((h * 3600 + m * 60 + s) / 86400) 999999999);
      simpl; try done; intros [= <-]; (split; [done|]); exists h, m, s; split; try done; lia.
  - intros (-> & h & m & s & -> & Hrange). unfold Py.timedelta.
    destruct (Z.leb_spec (-999999999) ((h * 3600 + m * 60 + s) / 86400));
      destruct (Z.leb_spec ((h * 3600 + m * 60 + s) / 86400) 999999999);
      simpl; try done; lia.
Qed.

(** X3: a duration comes only from three integer fields within the range,
    and it is the seconds of their raw values. *)
Theorem parse_duration_iff (text : string) (seconds : Z) :
  parse_gtfs_time (Str text) = Ret (Td seconds) <->
  exists h m s,
    Py.int <$> Py.split ":" text = [Some h; Some m; Some s] /\
    in_timedelta_range (h * 3600 + m * 60 + s) /\
    seconds = h * 3600 + m * 60 + s.
Proof.
  unfold parse_gtfs_time, in_timedelta_range. split.
  - destruct (Py.int <$> Py.split ":" text) as [|[h|] [|[m|] [|[s|] [|x l]]]];
      simpl; try done.
    unfold Py.timedelta.
    destruct (Z.leb_spec (-999999999) ((h * 3600 + m * 60 + s) / 86400));
      destruct (Z.leb_spec ((h * 3600 + m * 60 + s) / 86400) 999999999);
      simpl; try done; intros [= <-]; exists h, m, s; split; try done; lia.
  - intros (h & m & s & -> & Hrange & ->). unfold Py.timedelta.
    destruct (Z.leb_spec (-999999999) ((h * 3600 + m * 60 + s) / 86400));
      destruct (Z.leb_spec ((h * 3600 + m * 60 + s) / 86400) 999999999);
      simpl; try done; lia.
Qed.

(** ** The resolver on tables it cannot use, and on tables it has written *)

Section ResolverMore.

Variable strptime_Ymd : string -> option Z.

#[local] Abbreviation get_active_services_on_date :=
  (get_active_services_on_date strptime_Ymd).
#[local] Abbreviation active_services := (active_services strptime_Ymd).
#[local] Abbreviation calendar_after := (calendar_after strptime_Ymd).
#[local] Abbreviation normalized_calendar := (normalized_calendar strptime_Ymd).
#[local] Abbreviation normalize_date_column := (normalize_date_column strptime_Ymd).

Lemma guard_false (df : DataFrame) (needed : list string) :
  Pd.empty df = true \/
  (exists col, col ∈ needed /\ Pd.has_column col df = false) ->
  ~ Spec.usable df needed.
Proof.
  intros [Hempty|(col & Hin & Hcol)] [Hne Hcols]; [congruence|].
  apply bool_decide_eq_false in Hcol. by apply Hcol, Hcols.
Qed.

(** X4: a calendar that is empty or lacks one of the four columns the date
    needs gives no base set, and is left as it is: the services are
    those of the exceptions alone. *)
Theorem resolve_without_usable_calendar (date : Z) (calendar calendar_dates : DataFrame) :
  Pd.empty calendar = true \/
  (exists col, col ∈ [Date.day_name date; "start_date"; "end_date"; "service_id"] /\
               Pd.has_column col calendar = false) ->
  (get_active_services_on_date date calendar calendar_dates).1.2 = calendar /\
  forall service_id,
    service_id ∈ (get_active_services_on_date date calendar calendar_dates).1.1 <->
    Spec.added calendar_dates date service_id /\
    ~ Spec.removed calendar_dates date service_id.
Proof.
  intros Hunusable. apply guard_false in Hunusable. split.
  - rewrite get_active_fst_snd. simpl. unfold calendar_after.
    destruct (calendar_guard date calendar) eqn:Hg; [|done].
    by apply calendar_guard_usable in Hg.
  - intros service_id.
    rewrite (active_services_resolve strptime_Ymd date calendar calendar_dates service_id).
    unfold Spec.resolve, Spec.base. tauto.
Qed.

(** X5: exceptions that are empty or lack one of their three columns add
    and remove nothing, and are left as they are: the services are the
    base set. *)
Theorem resolve_without_usable_exceptions (date : Z) (calendar calendar_dates : DataFrame) :
  Pd.empty calendar_dates = true \/
  (exists col, col ∈ ["date"; "exception_type"; "service_id"] /\
               Pd.has_column col calendar_dates = false) ->
  (get_active_services_on_date date calendar calendar_dates).2 = calendar_dates /\
  forall service_id,
    service_id ∈ (get_active_services_on_date date calendar calendar_dates).1.1 <->
    Spec.base strptime_Ymd calendar date service_id.
Proof.
  intros Hunusable. apply guard_false in Hunusable. split.
  - rewrite get_active_fst_snd. simpl. unfold exceptions_after.
    destruct (exceptions_guard calendar_dates) eqn:Hg; [|done].
    by apply exceptions_guard_usable in Hg.
  - intros service_id.
    rewrite (active_services_resolve strptime_Ymd date calendar calendar_dates service_id).
    unfold Spec.resolve, Spec.added, Spec.removed, Spec.exception. tauto.
Qed.

(** X6: every service returned is a cell of the column [service_id] of the
    calendar or of the exceptions. *)
Theorem resolve_within_tables (date : Z) (calendar calendar_dates : DataFrame)
    (service_id : value) :
  service_id ∈ (get_active_services_on_date date calendar calendar_dates).1.1 ->
  service_id ∈ values (Pd.column calendar "service_id") \/
  service_id ∈ values (Pd.column calendar_dates "service_id").
Proof.
  intros Hin.
  apply (active_services_resolve strptime_Ymd date calendar calendar_dates) in Hin
    as [[Hbase|Hadded] _]; rewrite !values_column, !list_elem_of_fmap.
  - destruct Hbase as (_ & row & Hrow & Hsid & _). left. by exists row.
  - destruct Hadded as (_ & row & Hrow & Hsid & _). right. by exists row.
Qed.

(** *** A call on the tables that an earlier call has written *)

Lemma normalized_calendar_settled (calendar : DataFrame) :
  settled (normalized_calendar calendar).
Proof.
  unfold normalized_calendar. split.
  - unfold Pd.is_datetime64_any_dtype.
    rewrite dtype_normalize_other by done. apply dtype_normalize.
  - apply dtype_normalize.
Qed.

Lemma normalized_calendar_twice (calendar : DataFrame) :
  normalized_calendar (normalized_calendar calendar) = normalized_calendar calendar.
Proof.
  destruct (normalized_calendar_settled calendar) as [Hs He].
  unfold normalized_calendar at 1.
  by rewrite (normalize_settled _ _ "start_date"), normalize_settled.
Qed.

Lemma has_column_normalize (df : DataFrame) (n col : string) :
  Pd.has_column n df = true ->
  Pd.has_column col (normalize_date_column df n) = Pd.has_column col df.
Proof.
  intros Hn. unfold normalize_date_column.
  destruct (negb _); [|done]. rewrite has_column_setitem.
  case_bool_decide as Hcol; [|apply orb_false_r].
  subst col. by rewrite Hn.
Qed.

Lemma empty_normalize (df : DataFrame) (n : string) :
  Pd.empty df = false -> Pd.empty (normalize_date_column df n) = false.
Proof.
  intros He. unfold normalize_date_column.
  destruct (negb _); [by apply empty_setitem|done].
Qed.

Lemma calendar_guard_after (d1 d2 : Z) (calendar : DataFrame) :
  calendar_guard d2 (calendar_after d1 calendar) = calendar_guard d2 calendar.
Proof.
  unfold calendar_after.
  destruct (calendar_guard d1 calendar) eqn:Hg; [|done].
  unfold calendar_guard in Hg. apply andb_true_iff in Hg as [Hne Hcols].
  apply negb_true_iff in Hne. simpl in Hcols.
  apply andb_true_iff in Hcols as [_ Hcols].
  apply andb_true_iff in Hcols as [Hs Hcols].
  apply andb_true_iff in Hcols as [He _].
  unfold calendar_guard, normalized_calendar.
  rewrite (empty_normalize _ "end_date"), Hne by (by apply empty_normalize).
  assert (forall col,
    Pd.has_column col
      (normalize_date_column (normalize_date_column calendar "start_date") "end_date") =
    Pd.has_column col calendar) as Hall.
  { intros col.
    rewrite (has_column_normalize _ "end_date") by (by rewrite has_column_normalize).
    by apply has_column_normalize. }
  simpl. by rewrite !Hall.
Qed.

Lemma normalized_calendar_after (d1 : Z) (calendar : DataFrame) :
  normalized_calendar (calendar_after d1 calendar) = normalized_calendar calendar.
Proof.
  unfold calendar_after.
  destruct (calendar_guard d1 calendar); [apply normalized_calendar_twice|done].
Qed.

Lemma active_services_calendar_after (d1 d2 : Z) (calendar calendar_dates : DataFrame) :
  active_services d2 (calendar_after d1 calendar) calendar_dates =
  active_services d2 calendar calendar_dates.
Proof.
  unfold active_services. rewrite !get_active_unfold. cbn [fst].
  by rewrite calendar_guard_after, normalized_calendar_after.
Qed.

(** X7: what an earlier call, for the same date or another, has written
    into the calendar and the exceptions does not change the services
    that a call returns. *)
Theorem resolve_after_earlier_call (d1 d2 : Z) (calendar calendar_dates : DataFrame) :
  (get_active_services_on_date d2
     (get_active_services_on_date d1 calendar calendar_dates).1.2
     (get_active_services_on_date d1 calendar calendar_dates).2).1.1 =
  (get_active_services_on_date d2 calendar calendar_dates).1.1.
Proof.
  rewrite (get_active_fst_snd strptime_Ymd d1). cbn [fst snd].
  change (active_services d2 (calendar_after d1 calendar)
            (exceptions_after calendar_dates) =
          active_services d2 calendar calendar_dates).
  by rewrite active_services_exceptions_after, active_services_calendar_after.
Qed.

(** X8: a second call for the same date writes nothing that the first has
    not written: the tables are as the first call left them. *)
Theorem resolve_writes_once (date : Z) (calendar calendar_dates : DataFrame) :
  let first := get_active_services_on_date date calendar calendar_dates in
  let second := get_active_services_on_date date first.1.2 first.2 in
  second.1.2 = first.1.2 /\ second.2 = first.2.
Proof.
  cbn zeta. rewrite !(get_active_fst_snd strptime_Ymd). cbn [fst snd]. split.
  - unfold calendar_after at 1. rewrite calendar_guard_after.
    rewrite normalized_calendar_after. unfold calendar_after.
    by destruct (calendar_guard date calendar).
  - apply exceptions_after_twice.
Qed.

End ResolverMore.

Lemma resolve_without_usable_calendar_witness :
  (get_active_services_on_date Example.strptime_Ymd 19724
     (Pd.new_frame calendar_columns) Example.calendar_dates).1.2 =
  Pd.new_frame calendar_columns.
Proof.
  apply (resolve_without_usable_calendar Example.strptime_Ymd 19724
           (Pd.new_frame calendar_columns) Example.calendar_dates).
  left. reflexivity.
Defined.

Lemma resolve_without_usable_exceptions_witness :
  (get_active_services_on_date Example.strptime_Ymd 19724
     Example.calendar (Pd.new_frame calendar_dates_columns)).2 =
  Pd.new_frame calendar_dates_columns.
Proof.
  apply (resolve_without_usable_exceptions Example.strptime_Ymd 19724
           Example.calendar (Pd.new_frame calendar_dates_columns)).
  left. reflexivity.
Defined.

Lemma resolve_within_tables_witness :
  Str "S1" ∈ values (Pd.column Example.calendar "service_id") \/
  Str "S1" ∈ values (Pd.column Example.calendar_dates "service_id").
Proof.
  apply (resolve_within_tables Example.strptime_Ymd 19724).
  apply (bool_decide_unpack _). by vm_compute.
Defined.

(** ** The hours of a date and the order of the rows *)

Lemma foldr_min_swap (x y : Z) (l : list Z) :
  Z.min x (foldr Z.min y l) = Z.min y (foldr Z.min x l).
Proof. induction l as [|z l IH]; simpl; lia. Qed.

Lemma foldr_max_swap (x y : Z) (l : list Z) :
  Z.max x (foldr Z.max y l) = Z.max y (foldr Z.max x l).
Proof. induction l as [|z l IH]; simpl; lia. Qed.

Lemma earliest_perm (l l' : list Z) : l ≡ₚ l' -> Spec.earliest l = Spec.earliest l'.
Proof.
  induction 1 as [|x l l' Hp IH|x y l|l l' l'' _ IH1 _ IH2]; simpl.
  - done.
  - f_equal. clear IH. induction Hp; simpl; congruence || lia.
  - f_equal. apply foldr_min_swap.
  - congruence.
Qed.

Lemma latest_perm (l l' : list Z) : l ≡ₚ l' -> Spec.latest l = Spec.latest l'.
Proof.
  induction 1 as [|x l l' Hp IH|x y l|l l' l'' _ IH1 _ IH2]; simpl.
  - done.
  - f_equal. clear IH. induction Hp; simpl; congruence || lia.
  - f_equal. apply foldr_max_swap.
  - congruence.
Qed.

Lemma span_perm (group group' : list (gmap string value)) :
  group ≡ₚ group' -> Spec.span group = Spec.span group'.
Proof.
  intros Hp. unfold Spec.span, Spec.times.
  by rewrite (earliest_perm _ _ (omap_Permutation _ _ _ Hp)),
             (latest_perm _ _ (omap_Permutation _ _ _ Hp)).
Qed.

Lemma has_block_perm (merged merged' : DataFrame) :
  dtypes merged' = dtypes merged -> rows merged' ≡ₚ rows merged ->
  Spec.has_block merged' = Spec.has_block merged.
Proof.
  intros Hd Hp. apply eq_true_iff_eq. rewrite !has_block_iff.
  unfold Pd.columns. rewrite Hd. by setoid_rewrite Hp.
Qed.

Lemma identifiers_perm (name : string) (merged merged' : DataFrame) :
  rows merged' ≡ₚ rows merged ->
  Spec.identifiers name merged' ≡ₚ Spec.identifiers name merged.
Proof.
  intros Hp. apply NoDup_Permutation.
  - apply NoDup_remove_dups.
  - apply NoDup_remove_dups.
  - intros k. rewrite !elem_of_identifiers. by setoid_rewrite Hp.
Qed.

Lemma aggregate_perm (merged merged' : DataFrame) :
  dtypes merged' = dtypes merged -> rows merged' ≡ₚ rows merged ->
  (Spec.aggregate merged' == Spec.aggregate merged)%Q.
Proof.
  intros Hd Hp. unfold Spec.aggregate, Spec.grouping_key.
  rewrite (has_block_perm merged merged' Hd Hp).
  set (name := if Spec.has_block merged then "block_id" else "trip_id").
  etransitivity.
  - apply Qsum_perm, fmap_Permutation, (identifiers_perm name _ _ Hp).
  - erewrite list_fmap_ext; [reflexivity|].
    intros i k _. apply span_perm. unfold Spec.group_rows. by rewrite Hp.
Qed.

(** X9: the hours that the groups of a date add do not depend on the order
    of the joined rows. *)
Theorem group_hours_ignore_row_order (merged merged' : DataFrame) (total_hours : Q) :
  dtypes merged' = dtypes merged ->
  rows merged' ≡ₚ rows merged ->
  (add_group_hours merged' total_hours == add_group_hours merged total_hours)%Q.
Proof.
  intros Hd Hp. rewrite !add_group_hours_aggregate.
  by rewrite (aggregate_perm merged merged' Hd Hp).
Qed.

Lemma group_hours_ignore_row_order_witness :
  (add_group_hours
     (mkFrame (dtypes Example.merged_with_blocks) (reverse (rows Example.merged_with_blocks)))
     0 ==
   add_group_hours Example.merged_with_blocks 0)%Q.
Proof.
  apply group_hours_ignore_row_order; [reflexivity|].
  cbn [rows]. apply reverse_Permutation.
Defined.

(** ** The rows that are grouped *)

Lemma apply_parse_cells (s parsed : Series) :
  apply_parse s = Ret parsed ->
  Forall (fun v => v = NA \/ exists seconds, v = Td seconds) (values parsed).
Proof.
  unfold apply_parse.
  destruct (mapM parse_gtfs_time (values s)) as [tds|e] eqn:Hm; simpl; [|done].
  intros [= <-]. simpl. revert tds Hm.
  induction (values s) as [|v l IH]; intros tds; simpl.
  - by intros [= <-].
  - destruct (parse_gtfs_time v) as [td|e] eqn:Hv; simpl; [|done].
    destruct (mapM parse_gtfs_time l) as [tds'|e]; simpl; [|done].
    intros [= <-]. constructor; [|by apply IH].
    destruct (parse_cases v) as [[seconds Hs]|[Hna|[e He]]]; try congruence.
    + right. exists seconds. congruence.
    + left. congruence.
Qed.

Lemma setitem_cell (df : DataFrame) (name : string) (s : Series)
    (row : gmap string value) :
  row ∈ rows (Pd.setitem df name s) ->
  Pd.cell name row = NA \/ Pd.cell name row ∈ values s.
Proof.
  unfold Pd.setitem. simpl. intros Hin.
  apply list_elem_of_lookup in Hin as [i Hi].
  rewrite list_lookup_imap in Hi.
  destruct (rows df !! i) as [r|]; simpl in Hi; [|done].
  injection Hi as <-. rewrite cell_insert, decide_True by done.
  destruct (values s !! i) as [v|] eqn:Hv; simpl; [|by left].
  right. by eapply list_elem_of_lookup_2.
Qed.

Lemma setitem_cell_other (df : DataFrame) (name other : string) (s : Series)
    (row : gmap string value) :
  other <> name ->
  row ∈ rows (Pd.setitem df name s) ->
  exists row0, row0 ∈ rows df /\ Pd.cell other row = Pd.cell other row0.
Proof.
  unfold Pd.setitem. simpl. intros Hne Hin.
  apply list_elem_of_lookup in Hin as [i Hi].
  rewrite list_lookup_imap in Hi.
  destruct (rows df !! i) as [r|] eqn:Hr; simpl in Hi; [|done].
  injection Hi as <-. exists r. split; [by eapply list_elem_of_lookup_2|].
  by rewrite cell_insert, decide_False.
Qed.

(** X10: every row that reaches the grouping has an arrival and a departure
    that the parser has read: the rows with a missing or unreadable time
    are dropped before. *)
Theorem grouped_rows_have_both_times
    (active : gset value) (trips stop_times merged : DataFrame) :
  joined active trips stop_times = Ret (Some merged) ->
  forall row, row ∈ rows merged ->
    exists arrival departure,
      Pd.cell "arrival_td" row = Td arrival /\ Pd.cell "departure_td" row = Td departure.
Proof.
  unfold joined. intros Hj row Hrow.
  destruct (bool_decide (active = ∅)); [done|].
  destruct (Pd.getitem trips "service_id") as [service_id|]; simpl in Hj; [|done].
  destruct (Pd.empty (Pd.select trips _)); [done|].
  destruct (_ || _); [done|].
  destruct (Pd.empty (Merge.merge _ _ _)); [done|].
  destruct (Pd.getitem _ "arrival_time") as [arrival_time|]; simpl in Hj; [|done].
  destruct (apply_parse arrival_time) as [arrival_td|] eqn:Ha; simpl in Hj; [|done].
  destruct (Pd.getitem _ "departure_time") as [departure_time|]; simpl in Hj; [|done].
  destruct (apply_parse departure_time) as [departure_td|] eqn:Hd; simpl in Hj; [|done].
  destruct (Pd.empty (dropna2 _ _ _)); [done|].
  injection Hj as <-.
  apply dropna2_rows in Hrow as (Hrow & Harr & Hdep).
  apply apply_parse_cells in Ha, Hd. rewrite Forall_forall in Ha, Hd.
  assert (exists departure, Pd.cell "departure_td" row = Td departure) as [departure Hd'].
  { destruct (setitem_cell _ _ _ _ Hrow) as [?|Hin]; [done|].
    destruct (Hd _ Hin) as [?|?]; done. }
  assert (exists arrival, Pd.cell "arrival_td" row = Td arrival) as [arrival Ha'].
  { apply (setitem_cell_other _ _ "arrival_td") in Hrow as (row0 & Hrow0 & Heq); [|done].
    rewrite Heq in Harr |- *.
    destruct (setitem_cell _ _ _ _ Hrow0) as [?|Hin]; [done|].
    destruct (Ha _ Hin) as [?|?]; done. }
  by exists arrival, departure.
Qed.

Lemma grouped_rows_have_both_times_witness :
  match joined {[ Str "S1" ]} Example.trips Example.stop_times with
  | Ret (Some merged) =>
      Forall (fun row => exists arrival departure,
                  Pd.cell "arrival_td" row = Td arrival /\
                  Pd.cell "departure_td" row = Td departure) (rows merged)
  | _ => False
  end.
Proof.
  assert (match joined {[ Str "S1" ]} Example.trips Example.stop_times with
          | Ret (Some _) => True
          | _ => False
          end) as Hsome by (by vm_compute).
  destruct (joined {[ Str "S1" ]} Example.trips Example.stop_times)
    as [[merged|]|e] eqn:Hj.
  - apply Forall_forall. intros row Hrow.
    exact (grouped_rows_have_both_times _ _ _ _ Hj row Hrow).
  - exact Hsome.
  - exact Hsome.
Defined.

(** ** The stop times before the loop *)

Lemma fillna_values (df : DataFrame) (a b : string) :
  values (Pd.fillna (Pd.column df a) (Pd.column df b)) =
  (fun row => if isna (Pd.cell a row) then Pd.cell b row else Pd.cell a row) <$> rows df.
Proof.
  unfold Pd.fillna. simpl. apply list_eq. intros i.
  rewrite list_lookup_imap, !list_lookup_fmap.
  destruct (rows df !! i) as [row|]; simpl; [|done].
  by destruct (isna (Pd.cell a row)).
Qed.

(** X11: lines 133 and 134 row by row: an arrival that is missing becomes the
    departure of the row, then a departure that is missing becomes the
    arrival; a row that has neither keeps neither, and the other cells
    stay. *)
Theorem stop_times_filled_row_by_row (stop_times filled : DataFrame) :
  preprocess_stop_times stop_times = Ret filled ->
  rows filled =
  (fun row =>
     let arrival := Pd.cell "arrival_time" row in
     let departure := Pd.cell "departure_time" row in
     <["departure_time" := if isna departure then arrival else departure]>
       (<["arrival_time" := if isna arrival then departure else arrival]> row))
    <$> rows stop_times.
Proof.
  unfold preprocess_stop_times, Pd.getitem.
  destruct (Pd.has_column "arrival_time" stop_times); simpl; [|done].
  destruct (Pd.has_column "departure_time" stop_times); simpl; [|done].
  destruct (Pd.has_column "departure_time" _); simpl; [|done].
  destruct (Pd.has_column "arrival_time" _); simpl; [|done].
  intros [= <-].
  erewrite (rows_setitem _ "departure_time"); [|apply fillna_values].
  erewrite (rows_setitem _ "arrival_time"); [|apply fillna_values].
  rewrite <- list_fmap_compose. apply list_fmap_ext. intros i row _. simpl.
  rewrite !cell_insert, decide_False, decide_True by done.
  destruct (Pd.cell "arrival_time" row) eqn:Ha, (Pd.cell "departure_time" row) eqn:Hd;
    simpl; done.
Qed.

Lemma stop_times_filled_row_by_row_witness :
  rows (mkFrame [("trip_id", object); ("arrival_time", object); ("departure_time", object)]
          [ {[ "trip_id" := Str "T1"; "arrival_time" := Str "08:00:00";
               "departure_time" := Str "08:00:00" ]};
            {[ "trip_id" := Str "T1"; "arrival_time" := Str "08:30:00";
               "departure_time" := Str "08:30:00" ]} ]) =
  (fun row =>
     let arrival := Pd.cell "arrival_time" row in
     let departure := Pd.cell "departure_time" row in
     <["departure_time" := if isna departure then arrival else departure]>
       (<["arrival_time" := if isna arrival then departure else arrival]> row))
    <$> rows Example.stop_times_with_gap.
Proof.
  apply stop_times_filled_row_by_row. by vm_compute.
Defined.

(** ** Tables without the columns the loop needs *)

Section Columns.

Variable strptime_Ymd : string -> option Z.

#[local] Abbreviation calculate_service_hours := (calculate_service_hours strptime_Ymd).
#[local] Abbreviation prepare := (prepare strptime_Ymd).
#[local] Abbreviation range_total := (range_total strptime_Ymd).
#[local] Abbreviation range_hours := (range_hours strptime_Ymd).
#[local] Abbreviation date_hours := (date_hours strptime_Ymd).

Lemma check_passes (gtfs_data : gmap string DataFrame) :
  ~ Spec.missing_required_table gtfs_data ->
  (check_required required_files (default_calendar_dates gtfs_data)).2 = true.
Proof.
  intros Hpresent.
  destruct (check_required _ _).2 eqn:Hcheck; [done|]. exfalso. apply Hpresent.
  apply check_required_false in Hcheck.
  by rewrite !missing_default_calendar_dates in Hcheck.
Qed.

(** X12: with all required tables there, stop times that lack the column of
    the arrivals or of the departures make the call raise a [KeyError]
    for the first of the two that is missing, whatever the dates. *)
Theorem missing_time_column_raises (gtfs_data : gmap string DataFrame)
    (start_date end_date : Z) (stop_times : DataFrame) :
  ~ Spec.missing_required_table gtfs_data ->
  gtfs_data !! "stop_times.txt" = Some stop_times ->
  Pd.has_column "arrival_time" stop_times = false \/
  Pd.has_column "departure_time" stop_times = false ->
  (calculate_service_hours gtfs_data start_date end_date).2 =
  Raise (KeyError (if Pd.has_column "arrival_time" stop_times
                   then "departure_time" else "arrival_time")).
Proof.
  intros Hpresent Hst Hcol.
  rewrite calculate_prepare, prepare_unfold, (check_passes _ Hpresent).
  rewrite bound_stop_times, Hst. simpl.
  unfold preprocess_stop_times, Pd.getitem.
  destruct (Pd.has_column "arrival_time" stop_times); simpl; [|done].
  destruct Hcol as [?| ->]; done.
Qed.

(** X13: the test of line 135 comes after both columns were read: stop times
    that pass lines 133 and 134 have the two columns, and the
    [return 0.0] of that line is never taken. *)
Theorem time_column_guard_never_fires (stop_times filled : DataFrame) :
  preprocess_stop_times stop_times = Ret filled ->
  negb (Pd.has_column "arrival_time" filled) ||
  negb (Pd.has_column "departure_time" filled) = false.
Proof.
  intros Hfill. unfold preprocess_stop_times, Pd.getitem in Hfill.
  destruct (Pd.has_column "arrival_time" stop_times) eqn:Ha; simpl in Hfill; [|done].
  destruct (Pd.has_column "departure_time" stop_times) eqn:Hd; simpl in Hfill; [|done].
  rewrite !has_column_setitem, Ha, Hd in Hfill. simpl in Hfill.
  injection Hfill as <-. rewrite !has_column_setitem, Ha, Hd. done.
Qed.

(** *** No column [trip_id] *)

Lemma joined_without_trip_id (active : gset value) (trips stop_times : DataFrame)
    (merged : option DataFrame) :
  Pd.has_column "trip_id" trips = false \/ Pd.has_column "trip_id" stop_times = false ->
  joined active trips stop_times = Ret merged -> merged = None.
Proof.
  intros Hcol. unfold joined.
  destruct (bool_decide (active = ∅)); [congruence|].
  destruct (Pd.getitem trips "service_id") as [service_id|]; simpl; [|done].
  destruct (Pd.empty (Pd.select trips _)); [congruence|].
  assert (negb (Pd.has_column "trip_id"
                  (Pd.select trips (Pd.isin service_id active))) ||
          negb (Pd.has_column "trip_id" stop_times) = true) as ->; [|congruence].
  unfold Pd.has_column at 1, Pd.columns, Pd.select. simpl.
  fold (Pd.columns trips). fold (Pd.has_column "trip_id" trips).
  destruct Hcol as [->| ->]; [done|apply orb_true_r].
Qed.

Lemma range_hours_without_trip_id (dates : list Z) (t : tables) (hours : Q) :
  Pd.has_column "trip_id" (trips_txt t) = false \/
  Pd.has_column "trip_id" (stop_times_txt t) = false ->
  range_hours dates t = Ret hours -> (hours == 0)%Q.
Proof.
  intros Hcol. revert hours. induction dates as [|date dates IH]; intros hours; simpl.
  - by intros [= <-].
  - unfold date_hours.
    destruct (joined _ _ _) as [merged|e] eqn:Hj; simpl; [|done].
    apply (joined_without_trip_id _ _ _ _ Hcol) in Hj as ->. simpl.
    destruct (range_hours dates t) as [others|e]; simpl; [|done].
    intros [= <-]. rewrite (IH others eq_refl). reflexivity.
Qed.

(** X14: trips or stop times without the column [trip_id] are no error: every
    date is skipped at line 147, and a call that returns returns zero
    hours. *)
Theorem no_trip_id_no_hours (gtfs_data : gmap string DataFrame)
    (start_date end_date : Z) (trips stop_times : DataFrame) (total_hours : Q) :
  gtfs_data !! "trips.txt" = Some trips ->
  gtfs_data !! "stop_times.txt" = Some stop_times ->
  Pd.has_column "trip_id" trips = false \/ Pd.has_column "trip_id" stop_times = false ->
  (calculate_service_hours gtfs_data start_date end_date).2 = Ret total_hours ->
  (total_hours == 0)%Q.
Proof.
  intros Htrips Hst Hcol. rewrite calculate_prepare, prepare_unfold.
  pose proof (bound_trips gtfs_data) as Hbt.
  pose proof (bound_stop_times gtfs_data) as Hbs.
  rewrite Htrips in Hbt. rewrite Hst in Hbs. cbn [default] in Hbt, Hbs.
  remember (bound_tables gtfs_data) as bound eqn:Hbound. clear Hbound.
  destruct (check_required _ _).2; simpl; [|by intros [= <-]].
  destruct (preprocess_stop_times _) as [filled|e] eqn:Hfill; simpl; [|done].
  destruct (_ || _); simpl; [by intros [= <-]|].
  intros Hr. apply range_total_returns in Hr as (hours & Hh & ->).
  apply range_hours_without_trip_id in Hh; [by rewrite Hh|].
  cbn [trips_txt stop_times_txt]. rewrite Hbt.
  apply same_except_preprocess_stop_times in Hfill as [_ Hsame].
  destruct (Hsame "trip_id") as [-> _]; [set_solver|].
  by rewrite Hbs.
Qed.

End Columns.

Lemma missing_time_column_raises_witness :
  (calculate_service_hours Example.strptime_Ymd
     (<["stop_times.txt" := Example.stop_times_without_arrivals]> Example.feed)
     19724 19724).2 = Raise (KeyError "arrival_time").
Proof.
  apply (missing_time_column_raises Example.strptime_Ymd
           (<["stop_times.txt" := Example.stop_times_without_arrivals]> Example.feed)
           19724 19724 Example.stop_times_without_arrivals).
  - intros [H|[H|[H _]]]; vm_compute in H; discriminate H.
  - by vm_compute.
  - left. by vm_compute.
Defined.

Lemma time_column_guard_never_fires_witness :
  match preprocess_stop_times Example.stop_times_with_gap with
  | Ret filled =>
      negb (Pd.has_column "arrival_time" filled) ||
      negb (Pd.has_column "departure_time" filled) = false
  | Raise _ => False
  end.
Proof.
  assert (match preprocess_stop_times Example.stop_times_with_gap with
          | Ret _ => True
          | Raise _ => False
          end) as Hret by (by vm_compute).
  destruct (preprocess_stop_times Example.stop_times_with_gap) as [filled|e] eqn:Hfill.
  - exact (time_column_guard_never_fires _ _ Hfill).
  - exact Hret.
Defined.

Lemma no_trip_id_no_hours_witness :
  (calculate_service_hours Example.strptime_Ymd Edge.feed_without_trip_id 19723 19729).2 =
    Ret 0%Q /\
  (0 == 0)%Q.
Proof.
  assert ((calculate_service_hours Example.strptime_Ymd
             Edge.feed_without_trip_id 19723 19729).2 = Ret 0%Q) as H by (by vm_compute).
  split; [exact H|].
  apply (no_trip_id_no_hours Example.strptime_Ymd Edge.feed_without_trip_id 19723 19729
           Edge.trips_without_trip_id Example.stop_times 0%Q); [by vm_compute..| |exact H].
  left. by vm_compute.
Defined.

(** ** A longer range *)

Section Days.

Variable strptime_Ymd : string -> option Z.

#[local] Abbreviation calculate_service_hours := (calculate_service_hours strptime_Ymd).
#[local] Abbreviation prepare := (prepare strptime_Ymd).
#[local] Abbreviation range_total := (range_total strptime_Ymd).
#[local] Abbreviation range_hours := (range_hours strptime_Ymd).
#[local] Abbreviation date_hours := (date_hours strptime_Ymd).
#[local] Abbreviation date_total := (date_total strptime_Ymd).

(** X16: a longer range has no fewer hours: for a <= b <= c the hours of a..b
    are at most those of a..c. *)
Theorem longer_range_has_no_fewer_hours (gtfs_data : gmap string DataFrame)
    (a b c : Z) (shorter longer : Q) :
  a <= b <= c ->
  (calculate_service_hours gtfs_data a b).2 = Ret shorter ->
  (calculate_service_hours gtfs_data a c).2 = Ret longer ->
  (shorter <= longer)%Q.
Proof.
  intros [Hab Hbc]. destruct (decide (b = c)) as [->|Hne].
  { intros -> [= ->]. apply Qle_refl. }
  rewrite !calculate_prepare.
  destruct (prepare gtfs_data) as [[t|]|e]; simpl; [|by intros [= <-] [= <-]|done].
  rewrite (date_range_split a b c) by lia. intros Hs Hl.
  pose proof (range_total_split strptime_Ymd (Date.date_range a b)
                (Date.date_range (b + 1) c) t) as Hsplit.
  rewrite Hs, Hl in Hsplit. simpl in Hsplit.
  destruct (range_total (Date.date_range (b + 1) c) t 0%Q) as [rest|e] eqn:Hrest;
    simpl in Hsplit; [|done].
  apply range_total_returns in Hrest as (hours & Hh & Hrest).
  apply range_hours_nonneg in Hh.
  rewrite Hsplit, Hrest, Qplus_0_l.
  rewrite <- (Qplus_0_r shorter) at 1. by apply Qplus_le_r.
Qed.

End Days.

Lemma longer_range_has_no_fewer_hours_witness : (3600 # 3600 <= 25920000 # 12960000)%Q.
Proof.
  apply (longer_range_has_no_fewer_hours Example.strptime_Ymd Example.feed
           19724 19724 19725); [lia|by vm_compute..].
Defined.

(** ** The archive *)

(** What the dict holds for a name after the members [names] were read
    into [gtfs_files]. *)
Lemma read_members_lookup (z : ZipFile) (names : list string)
    (gtfs_files files : gmap string DataFrame) (name : string) :
  read_members z names gtfs_files = Done files ->
  match files !! name with
  | Some df =>
      (name ∈ names /\ endswith ".txt" name = true /\
       (read_csv z name utf_8 = Done df \/
        (read_csv z name utf_8 = Failed UnicodeDecodeError /\
         read_csv z name latin1 = Done df) \/
        (df = Pd.DataFrame0 /\
         exists e, read_csv z name utf_8 = Failed e /\ e <> UnicodeDecodeError))) \/
      ((name ∉ names \/ endswith ".txt" name = false) /\ gtfs_files !! name = Some df)
  | None =>
      (name ∉ names \/ endswith ".txt" name = false) /\ gtfs_files !! name = None
  end.
Proof.
  revert gtfs_files. induction names as [|n names IH]; intros gtfs_files; simpl.
  - intros [= <-]. destruct (gtfs_files !! name); set_solver.
  - assert (forall df,
      (read_csv z n utf_8 = Done df \/
       (read_csv z n utf_8 = Failed UnicodeDecodeError /\ read_csv z n latin1 = Done df) \/
       (df = Pd.DataFrame0 /\
        exists e, read_csv z n utf_8 = Failed e /\ e <> UnicodeDecodeError)) ->
      endswith ".txt" n = true ->
      read_members z names (<[n := df]> gtfs_files) = Done files ->
      match files !! name with
      | Some df =>
          (name ∈ n :: names /\ endswith ".txt" name = true /\
           (read_csv z name utf_8 = Done df \/
            (read_csv z name utf_8 = Failed UnicodeDecodeError /\
             read_csv z name latin1 = Done df) \/
            (df = Pd.DataFrame0 /\
             exists e, read_csv z name utf_8 = Failed e /\ e <> UnicodeDecodeError))) \/
          ((name ∉ n :: names \/ endswith ".txt" name = false) /\
           gtfs_files !! name = Some df)
      | None =>
          (name ∉ n :: names \/ endswith ".txt" name = false) /\
          gtfs_files !! name = None
      end) as Hstep.
    { intros df Hdf Hn Hread. specialize (IH _ Hread).
      destruct (decide (name = n)) as [->|Hne].
      - rewrite lookup_insert_eq in IH.
        destruct (files !! n) as [df'|].
        + left. destruct IH as [(? & ? & ?)|[_ [= <-]]]; set_solver.
        + by destruct IH.
      - rewrite lookup_insert_ne in IH by done.
        destruct (files !! name) as [df'|]; set_solver. }
    destruct (endswith ".txt" n) eqn:Hn.
    + destruct (read_csv z n utf_8) as [df|[]] eqn:Hutf.
      * apply Hstep; auto.
      * apply Hstep; [|done]. right. right. split; [done|]. by eexists.
      * destruct (read_csv z n latin1) as [df|] eqn:Hlatin; [|done].
        apply Hstep; auto.
      * apply Hstep; [|done]. right. right. split; [done|]. by eexists.
    + intros Hread. specialize (IH _ Hread).
      destruct (files !! name) as [df|].
      * destruct IH as [(? & ? & ?)|[[?|?] ?]]; [left; set_solver|right..].
        -- split; [|done]. destruct (decide (name = n)) as [->|]; [by right|left; set_solver].
        -- by split; [right|].
      * destruct IH as [[?|?] ?]; (split; [|done]).
        -- destruct (decide (name = n)) as [->|]; [by right|left; set_solver].
        -- by right.
Qed.

(** X17: the dict that [read_gtfs_from_zip] returns has a key for every member
    whose name ends in .txt and for nothing else; under it is the frame
    read as UTF-8, or the one read as latin1 when UTF-8 gave a
    [UnicodeDecodeError], or an empty frame when the reading failed
    otherwise. *)
Theorem read_gtfs_from_zip_files (z : ZipFile) (files : gmap string DataFrame)
    (name : string) :
  read_gtfs_from_zip (Some z) = Done files ->
  match files !! name with
  | Some df =>
      name ∈ namelist z /\ endswith ".txt" name = true /\
      (read_csv z name utf_8 = Done df \/
       (read_csv z name utf_8 = Failed UnicodeDecodeError /\
        read_csv z name latin1 = Done df) \/
       (df = Pd.DataFrame0 /\
        exists e, read_csv z name utf_8 = Failed e /\ e <> UnicodeDecodeError))
  | None => name ∉ namelist z \/ endswith ".txt" name = false
  end.
Proof.
  intros Hread. apply (read_members_lookup _ _ _ _ name) in Hread.
  destruct (files !! name) as [df|].
  - destruct Hread as [?|[_ Hempty]]; [done|]. by rewrite lookup_empty in Hempty.
  - by destruct Hread.
Qed.

Lemma read_members_returns (z : ZipFile) (names : list string)
    (gtfs_files : gmap string DataFrame) :
  (exists files, read_members z names gtfs_files = Done files) <->
  forall name, name ∈ names -> endswith ".txt" name = true ->
    read_csv z name utf_8 = Failed UnicodeDecodeError ->
    exists df, read_csv z name latin1 = Done df.
Proof.
  revert gtfs_files. induction names as [|n names IH]; intros gtfs_files; simpl.
  - split; [set_solver|eauto].
  - destruct (endswith ".txt" n) eqn:Hn.
    + destruct (read_csv z n utf_8) as [df|[]] eqn:Hutf.
      * rewrite IH. set_unfold. split; [|by eauto].
        intros H name [->|?]; [congruence|by eauto].
      * rewrite IH. set_unfold. split; [|by eauto].
        intros H name [->|?]; [congruence|by eauto].
      * destruct (read_csv z n latin1) as [df|e] eqn:Hlatin.
        -- rewrite IH. set_unfold. split; [|by eauto].
           intros H name [->|?]; [by eauto|by eauto].
        -- split; [by intros [? [=]]|].
           intros H. destruct (H n) as [df Hdf]; [set_solver|done|done|congruence].
      * rewrite IH. set_unfold. split; [|by eauto].
        intros H name [->|?]; [congruence|by eauto].
    + rewrite IH. set_unfold. split; [|by eauto].
      intros H name [->|?]; [congruence|by eauto].
Qed.

(** X18: reading an archive raises only out of the second reading of a
    member: it returns exactly when every member with a name in .txt that
    gave a [UnicodeDecodeError] as UTF-8 is read as latin1. No other
    failure of a member stops it. *)
Theorem read_gtfs_from_zip_returns (z : ZipFile) :
  (exists files, read_gtfs_from_zip (Some z) = Done files) <->
  forall name, name ∈ namelist z -> endswith ".txt" name = true ->
    read_csv z name utf_8 = Failed UnicodeDecodeError ->
    exists df, read_csv z name latin1 = Done df.
Proof. apply read_members_returns. Qed.

Lemma read_gtfs_from_zip_files_witness :
  match read_gtfs_from_zip (Some Archive.latin1_stop_times) with
  | Done files =>
      match files !! "stop_times.txt" with
      | Some df =>
          "stop_times.txt" ∈ namelist Archive.latin1_stop_times /\
          endswith ".txt" "stop_times.txt" = true /\
          (read_csv Archive.latin1_stop_times "stop_times.txt" utf_8 = Done df \/
           (read_csv Archive.latin1_stop_times "stop_times.txt" utf_8 =
              Failed UnicodeDecodeError /\
            read_csv Archive.latin1_stop_times "stop_times.txt" latin1 = Done df) \/
           (df = Pd.DataFrame0 /\
            exists e, read_csv Archive.latin1_stop_times "stop_times.txt" utf_8 = Failed e /\
                      e <> UnicodeDecodeError))
      | None =>
          "stop_times.txt" ∉ namelist Archive.latin1_stop_times \/
          endswith ".txt" "stop_times.txt" = false
      end
  | Failed _ => False
  end.
Proof.
  assert (match read_gtfs_from_zip (Some Archive.latin1_stop_times) with
          | Done _ => True
          | Failed _ => False
          end) as Hdone by (by vm_compute).
  destruct (read_gtfs_from_zip (Some Archive.latin1_stop_times)) as [files|e] eqn:Hread.
  - exact (read_gtfs_from_zip_files _ _ "stop_times.txt" Hread).
  - exact Hdone.
Defined.

(** ** A call from the request on *)

Section Response.

Variable strptime_Ymd : string -> option Z.

#[local] Abbreviation calculate_service_hours := (calculate_service_hours strptime_Ymd).
#[local] Abbreviation calculate_service_hours_from_response :=
  (calculate_service_hours_from_response strptime_Ymd).

Lemma missing_table_zero (gtfs_data : gmap string DataFrame) (start_date end_date : Z) :
  Spec.missing_required_table gtfs_data ->
  (calculate_service_hours gtfs_data start_date end_date).2 = Ret 0%Q.
Proof.
  intros Hmissing. rewrite calculate_prepare, prepare_unfold.
  assert ((check_required required_files (default_calendar_dates gtfs_data)).2 = false)
    as ->; [|done].
  apply check_required_false. by rewrite !missing_default_calendar_dates.
Qed.

(** X19: a trips.txt or stop_times.txt that is no member of the archive under
    exactly that name (as in an archive that holds the feed in a
    folder), or that is one and cannot be parsed, is no error: the call
    returns 0.0. *)
Theorem unreadable_table_gives_zero (z : ZipFile) (start_date end_date : Z)
    (name what : string) :
  name = "trips.txt" \/ name = "stop_times.txt" ->
  name ∉ namelist z \/ read_csv z name utf_8 = Failed (OtherException what) ->
  (exists files, read_gtfs_from_zip (Some z) = Done files) ->
  calculate_service_hours_from_response (Content (Some z)) start_date end_date =
  Returned (PyFloat 0).
Proof.
  intros Hname Hfail [files Hread].
  unfold calculate_service_hours_from_response.
  rewrite Hread.
  pose proof (read_members_lookup z _ _ files name Hread) as Hlookup.
  rewrite missing_table_zero; [done|].
  assert (missing_or_empty files name = true) as Hmissing.
  { unfold missing_or_empty. destruct (files !! name) as [df|]; [|done].
    destruct Hlookup as [(Hin & _ & Hdf)|[_ H]]; [|by rewrite lookup_empty in H].
    destruct Hfail as [Hnot|Hfail]; [done|].
    destruct Hdf as [H|[[H _]|[-> _]]]; [congruence..|done]. }
  destruct Hname as [->| ->]; [by left|by right; left].
Qed.

(** X20: the call returns [None] only when the request has failed: once
    there is a response, it returns a number or raises. *)
Theorem none_only_when_request_failed (r : response) (start_date end_date : Z) :
  calculate_service_hours_from_response r start_date end_date = Returned PyNone <->
  r = RequestFailed.
Proof.
  unfold calculate_service_hours_from_response.
  split; [|by intros ->].
  destruct r as [|content]; [done|].
  destruct (read_gtfs_from_zip content); [|done].
  by destruct (calculate_service_hours _ _ _).2.
Qed.

End Response.

Lemma unreadable_table_gives_zero_witness :
  calculate_service_hours_from_response Example.strptime_Ymd
    (Content (Some Archive.broken_trips)) 19724 19724 = Returned (PyFloat 0) /\
  calculate_service_hours_from_response Example.strptime_Ymd
    (Content (Some Archive.feed_in_folder)) 19724 19724 = Returned (PyFloat 0).
Proof.
  split.
  - apply (unreadable_table_gives_zero Example.strptime_Ymd Archive.broken_trips
             19724 19724 "trips.txt" "ParserError").
    + by left.
    + right. reflexivity.
    + apply read_members_returns. intros name _ _ Hutf. exfalso.
      unfold Archive.broken_trips in Hutf. simpl in Hutf.
      by repeat case_match.
  - apply (unreadable_table_gives_zero Example.strptime_Ymd Archive.feed_in_folder
             19724 19724 "trips.txt" "").
    + by left.
    + left. apply (bool_decide_unpack _). by vm_compute.
    + apply read_members_returns. intros name _ _ Hutf. exfalso.
      unfold Archive.feed_in_folder in Hutf. simpl in Hutf.
      by repeat case_match.
Defined.

(** ** The calendar during the loop *)

Section Calendar.

Variable strptime_Ymd : string -> option Z.

#[local] Abbreviation calculate_service_hours := (calculate_service_hours strptime_Ymd).
#[local] Abbreviation date_loop := (date_loop strptime_Ymd).

(** X21: once lines 127 to 132 have run, the two date columns of the
    calendar hold timestamps, and no call of
    [get_active_services_on_date] in the loop converts them again: the
    calendar that a call leaves is the one the preprocessing made. *)
Theorem calendar_is_converted_once (gtfs_data : gmap string DataFrame)
    (start_date end_date : Z) :
  ~ Spec.missing_required_table gtfs_data ->
  let calendar := preprocess_calendar strptime_Ymd (calendar_txt (bound_tables gtfs_data)) in
  Pd.is_datetime64_any_dtype (Pd.column calendar "start_date") = true /\
  Pd.is_datetime64_any_dtype (Pd.column calendar "end_date") = true /\
  calendar_txt (calculate_service_hours gtfs_data start_date end_date).1 = calendar.
Proof.
  intros Hpresent. cbn zeta.
  pose proof (preprocess_calendar_settled strptime_Ymd
                (calendar_txt (bound_tables gtfs_data))) as Hsettled.
  split; [apply Hsettled|]. split; [apply Hsettled|].
  pose proof (check_passes _ Hpresent) as Hcheck.
  unfold calculate_service_hours, bound_tables in *.
  destruct (check_required required_files (default_calendar_dates gtfs_data))
    as [data ok]. cbn [fst snd] in *. subst ok.
  destruct (preprocess_stop_times _) as [filled|e]; [|done].
  destruct (_ || _); [done|].
  match goal with
  | |- context [date_loop ?dates ?t ?total] =>
      destruct (date_loop_outcome strptime_Ymd t dates Hsettled t total (later_refl t))
        as [_ (Hcal & _)]
  end.
  exact Hcal.
Qed.

End Calendar.

Lemma calendar_is_converted_once_witness :
  Pd.column (calendar_txt (calculate_service_hours Example.strptime_Ymd
                             Example.feed_with_removal 19723 19729).1) "start_date" =
  mkSeries datetime64 [Ts 19723].
Proof.
  destruct (calendar_is_converted_once Example.strptime_Ymd
              Example.feed_with_removal 19723 19729) as (_ & _ & ->).
  - intros [H|[H|[H _]]]; vm_compute in H; discriminate H.
  - by vm_compute.
Defined.
